(** * Tello drone HUD / guidance system: controller input, command dispatch
      and battery overlay

    A shallow embedding of [xbox_one_controller.py], [indicators.py] and
    [app.py].  Python integers are [Z]; Python floats are the kernel's
    binary64 numbers; an object's attributes are a record or a finite map from
    attribute names; the calls made on the collaborators (drone, Tk, cv2,
    threads) are recorded in a trace, and what they answer or raise is given by
    an environment. *)

From Stdlib Require Import ZArith List Bool String Lia.
From Stdlib Require Floats.SpecFloat Floats.PrimFloat Floats.FloatOps.
Import ListNotations.
Open Scope Z_scope.

(** ** Python values used by the program *)

Module Py.

(** Python's [float] is IEEE 754 binary64, as is the kernel's [float]. *)
Definition float := PrimFloat.float.

(** [float(n)] for an [int]: the nearest binary64 number, ties to even;
    [None] stands for the [OverflowError] of an integer too large. *)
Definition float_of_int (n : Z) : option float :=
  let f := FloatOps.SF2Prim
             (SpecFloat.binary_normalize FloatOps.prec FloatOps.emax n 0 false) in
  if PrimFloat.is_infinity f then None else Some f.

(** [int(x)] for a [float]: truncation toward zero; [None] stands for the
    [OverflowError] (infinities) or [ValueError] (NaN) that Python raises. *)
Definition int_of_float (x : float) : option Z :=
  match FloatOps.Prim2SF x with
  | SpecFloat.S754_zero _ => Some 0
  | SpecFloat.S754_finite s m e =>
      Some (SpecFloat.cond_Zopp s (Z.shiftl (Zpos m) e))
  | SpecFloat.S754_infinity _ | SpecFloat.S754_nan => None
  end.

(** [math.pow(2, n)] for a small natural [n]: the float [2.0 ** n], exact. *)
Definition math_pow_2 (n : Z) : float :=
  FloatOps.Z.ldexp PrimFloat.one n.

(** [n / y] with [n] an [int] and [y] a non-zero [float]. *)
Definition int_truediv (n : Z) (y : float) : option float :=
  match float_of_int n with
  | Some x => Some (PrimFloat.div x y)
  | None => None
  end.

(** [x * n] with [x] a [float] and [n] an [int]. *)
Definition float_mul_int (x : float) (n : Z) : option float :=
  match float_of_int n with
  | Some y => Some (PrimFloat.mul x y)
  | None => None
  end.

(** Truth value of an [int] in a condition. *)
Definition truthy (v : Z) : bool := negb (v =? 0).

(** [l[i]] for a list and a non-negative literal index; [None] stands for
    [IndexError]. *)
Definition getitem {A : Type} (l : list A) (i : nat) : option A :=
  nth_error l i.

(** [l[i] = v]; [None] stands for [IndexError]. *)
Fixpoint setitem {A : Type} (l : list A) (i : nat) (v : A) : option (list A) :=
  match l, i with
  | [], _ => None
  | _ :: tl, O => Some (v :: tl)
  | hd :: tl, S j =>
      match setitem tl j v with
      | Some tl' => Some (hd :: tl')
      | None => None
      end
  end.

(** [l1 == l2] on lists of integers. *)
Fixpoint list_eqb (l1 l2 : list Z) : bool :=
  match l1, l2 with
  | [], [] => true
  | x :: t1, y :: t2 => (x =? y) && list_eqb t1 t2
  | _, _ => false
  end.

(** Exceptions: everything the program's [except Exception] clauses catch,
    and [SystemExit], which they do not. *)
Inductive exn : Type :=
| Exception (what : string)
| SystemExit.

Definition is_Exception (e : exn) : bool :=
  match e with
  | Exception _ => true
  | SystemExit => false
  end.

End Py.

(** ** xbox_one_controller.py *)

Module XboxController.

(** The instance attributes set by [__init__]. *)
Inductive attr : Type :=
| LeftJoystickY | LeftJoystickX | RightJoystickY | RightJoystickX
| LeftTrigger | RightTrigger | LeftBumper | RightBumper
| A | X | Y | B | LeftThumb | RightThumb | Back | Start
| LeftDPad | RightDPad | UpDPad | DownDPad.

Definition attr_eqb (a b : attr) : bool :=
  match a, b with
  | LeftJoystickY, LeftJoystickY | LeftJoystickX, LeftJoystickX
  | RightJoystickY, RightJoystickY | RightJoystickX, RightJoystickX
  | LeftTrigger, LeftTrigger | RightTrigger, RightTrigger
  | LeftBumper, LeftBumper | RightBumper, RightBumper
  | A, A | X, X | Y, Y | B, B
  | LeftThumb, LeftThumb | RightThumb, RightThumb
  | Back, Back | Start, Start
  | LeftDPad, LeftDPad | RightDPad, RightDPad
  | UpDPad, UpDPad | DownDPad, DownDPad => true
  | _, _ => false
  end.

(** The object: its attribute dictionary. *)
Definition t : Type := attr -> Z.

Definition setattr (self : t) (a : attr) (v : Z) : t :=
  fun b => if attr_eqb b a then v else self b.

(** Max values for normalizing. *)
Definition MAX_TRIG_VAL : Py.float := Py.math_pow_2 8.
Definition MAX_JOY_VAL : Py.float := Py.math_pow_2 15.

(** [__init__]: all input values zero. *)
Definition init : t := fun _ => 0.

(** [read]: the current input values as a list. *)
Definition read (self : t) : list Z :=
  [ self LeftJoystickX; self LeftJoystickY;
    self RightJoystickX; self RightJoystickY;
    self LeftTrigger; self RightTrigger;
    self LeftBumper; self RightBumper;
    self A; self X; self Y; self B;
    self LeftThumb; self RightThumb;
    self Back; self Start;
    self LeftDPad; self RightDPad; self UpDPad; self DownDPad ].

(** [_normalize]: [int((value / MAX_JOY_VAL) * 100)]. *)
Definition _normalize (value : Z) : option Z :=
  match Py.int_truediv value MAX_JOY_VAL with
  | Some q =>
      match Py.float_mul_int q 100 with
      | Some p => Py.int_of_float p
      | None => None
      end
  | None => None
  end.

(** [_filter_noise]: values of magnitude at most 15 become zero. *)
Definition _filter_noise (value : Z) : Z :=
  if Z.abs value <=? 15 then 0 else value.

(** One gamepad event: its code and its state. *)
Record event : Type := { code : string; state : Z }.

Definition store_axis (self : t) (a : attr) (raw : Z) : option t :=
  match _normalize raw with
  | Some n => Some (setattr self a (_filter_noise n))
  | None => None
  end.

(** The body of the [for event in events] loop of [_monitor_controller];
    [None] when [_normalize] raises. *)
Definition handle_event (self : t) (ev : event) : option t :=
  let c := code ev in
  let s := state ev in
  if (c =? "ABS_Y")%string then store_axis self LeftJoystickY s
  else if (c =? "ABS_X")%string then store_axis self LeftJoystickX s
  else if (c =? "ABS_RY")%string then store_axis self RightJoystickY s
  else if (c =? "ABS_RX")%string then store_axis self RightJoystickX s
  else if (c =? "ABS_Z")%string then store_axis self LeftTrigger s
  else if (c =? "ABS_RZ")%string then store_axis self RightTrigger s
  else if (c =? "BTN_START")%string then Some (setattr self Start s)
  else if (c =? "BTN_TL")%string then Some (setattr self LeftBumper s)
  else if (c =? "BTN_TR")%string then Some (setattr self RightBumper s)
  else if (c =? "BTN_SOUTH")%string then Some (setattr self A s)
  else if (c =? "BTN_NORTH")%string then Some (setattr self Y s)
  else if (c =? "BTN_WEST")%string then Some (setattr self X s)
  else if (c =? "BTN_EAST")%string then Some (setattr self B s)
  else if (c =? "BTN_THUMBL")%string then Some (setattr self LeftThumb s)
  else if (c =? "BTN_THUMBR")%string then Some (setattr self RightThumb s)
  else if (c =? "BTN_SELECT")%string then Some (setattr self Back s)
  else if (c =? "BTN_START")%string then Some (setattr self Start s)
  else if (c =? "BTN_TRIGGER_HAPPY1")%string then Some (setattr self LeftDPad s)
  else if (c =? "BTN_TRIGGER_HAPPY2")%string then Some (setattr self RightDPad s)
  else if (c =? "BTN_TRIGGER_HAPPY3")%string then Some (setattr self UpDPad s)
  else if (c =? "BTN_TRIGGER_HAPPY4")%string then Some (setattr self DownDPad s)
  else Some self.

(** [_monitor_controller] over the events that [get_gamepad] delivers, in
    order.  The thread has no handler: when an event raises, the thread ends
    and the attributes keep the values written so far.  The result is the
    object and whether the thread is still alive. *)
Fixpoint _monitor_controller (self : t) (events : list event) : t * bool :=
  match events with
  | [] => (self, true)
  | ev :: rest =>
      match handle_event self ev with
      | Some self' => _monitor_controller self' rest
      | None => (self, false)
      end
  end.

(** The event codes whose state goes through [_normalize]. *)
Definition is_axis (c : string) : bool :=
  ((c =? "ABS_Y") || (c =? "ABS_X") || (c =? "ABS_RY") || (c =? "ABS_RX")
   || (c =? "ABS_Z") || (c =? "ABS_RZ"))%string.

(** The closed form of [_normalize] on the joystick range: the quotient of
    [value * 100] by [2^15], rounded toward zero. *)
Definition normalize_agrees (r : Z) : bool :=
  match _normalize r with
  | Some q => q =? (r * 100) ÷ 32768
  | None => false
  end.

(** [agrees_on d base]: [normalize_agrees] on [base .. base + 2^d - 1]. *)
Fixpoint agrees_on (d : nat) (base : Z) : bool :=
  match d with
  | O => normalize_agrees base
  | S d' => agrees_on d' base && agrees_on d' (base + 2 ^ Z.of_nat d')
  end.

End XboxController.

(** ** Calls on the collaborators, and what they answer *)

Module Trace.

(** The targets of the threads the program starts. *)
Inductive target : Type :=
| DroneTakeoff            (* lambda: self.drone.takeoff() *)
| DroneLand.              (* lambda: self.drone.land() *)

(** The methods handed to Tk's [after]. *)
Inductive callback : Type :=
| UpdateJoystick
| VideoStream.

(** The widgets on which [after] is called. *)
Inductive widget : Type :=
| Root
| CapLbl.

(** What the program prints. *)
Inductive message : Type :=
| UpdatingIndicators                    (* "self.drone is true, updating indicators" *)
| BatteryIs (b : Z)                     (* f"self.battery = {self.battery}" *)
| JoystickUpdateException (e : Py.exn)
| VideoStreamException (e : Py.exn)
| ErrorRunningApplication (e : Py.exn)
| CleaningUpResources
| ErrorPerformingCleanup (e : Py.exn).

Definition point : Type := Z * Z.
Definition bgr : Type := Z * Z * Z.

(** The calls the program makes on the world outside it.  Time is in
    milliseconds: [time.sleep(0.15)] is [Sleep 150], [time.sleep(1)] is
    [Sleep 1000].  [Cv2PutText b ...] writes the text [f"{b} %"] in
    [FONT_HERSHEY_COMPLEX] at scale [.5]. *)
Inductive call : Type :=
| Print (m : message)
| Sleep (ms : Z)
| ThreadStart (tg : target)
| GetBattery
| SendRcControl (lr fb ud yaw : Z)
| After (wd : widget) (ms : Z) (cb : callback)
| DroneEnd
| RootQuit
| Exit
| Mainloop
| Cv2Resize (width height : Z)
| Cv2Rectangle (pt1 pt2 : point) (color : bgr) (thickness : Z)
| Cv2Line (pt1 pt2 : point) (color : bgr) (thickness : Z)
| Cv2PutText (percent : Z) (org : point) (color : bgr) (thickness : Z)
| Cv2CvtColor
| ImageFromarray
| PhotoImage
| CapLblPack
| CapLblConfigure.

(** How a call ends. *)
Inductive outcome : Type :=
| Returned
| Raised (e : Py.exn).

Definition trace : Type := list (call * outcome).

(** What the world answers during one activation of a method: whether each
    call returns or raises, and the value of [drone.is_flying] (an attribute
    of the vehicle library, changed by its own threads). *)
Record env : Type := {
  outcome_of : call -> outcome;
  drone_is_flying : bool
}.

(** A computation over an object of type [S]: the object after it, the calls
    made, and the value returned or the exception raised.  The object keeps
    the changes made before an exception. *)
Definition M (S A : Type) : Type := S -> S * trace * (Py.exn + A).

Definition ret {S A} (a : A) : M S A := fun s => (s, [], inr a).

Definition bind {S A B} (m : M S A) (f : A -> M S B) : M S B :=
  fun s =>
    match m s with
    | (s1, t1, inl e) => (s1, t1, inl e)
    | (s1, t1, inr a) =>
        match f a s1 with
        | (s2, t2, r) => (s2, t1 ++ t2, r)
        end
    end.

Definition get {S} : M S S := fun s => (s, [], inr s).

Definition modify {S} (f : S -> S) : M S unit := fun s => (f s, [], inr tt).

Definition raise {S A} (e : Py.exn) : M S A := fun s => (s, [], inl e).

(** A call that the environment lets return or raise. *)
Definition do_call {S} (ev : env) (c : call) : M S unit :=
  fun s =>
    (s, [(c, outcome_of ev c)],
     match outcome_of ev c with
     | Returned => inr tt
     | Raised e => inl e
     end).

(** A call that always returns ([print], [time.sleep]). *)
Definition emit {S} (c : call) : M S unit :=
  fun s => (s, [(c, Returned)], inr tt).

(** A Python operation that raises the named exception when it has no
    result. *)
Definition or_raise {S A} (what : string) (o : option A) : M S A :=
  match o with
  | Some a => ret a
  | None => raise (Py.Exception what)
  end.

(** [try: m except Exception as e: h e]. *)
Definition try_except {S A} (m : M S A) (h : Py.exn -> M S A) : M S A :=
  fun s =>
    match m s with
    | (s1, t1, inl e) =>
        if Py.is_Exception e then
          match h e s1 with
          | (s2, t2, r) => (s2, t1 ++ t2, r)
          end
        else (s1, t1, inl e)
    | (s1, t1, inr a) => (s1, t1, inr a)
    end.

(** [try: m finally: f]. *)
Definition try_finally {S A} (m : M S A) (f : M S unit) : M S A :=
  fun s =>
    match m s with
    | (s1, t1, r) =>
        match f s1 with
        | (s2, t2, inl e) => (s2, t1 ++ t2, inl e)
        | (s2, t2, inr _) => (s2, t1 ++ t2, r)
        end
    end.

(** The calls of a list, in order, up to the first that raises. *)
Fixpoint do_calls {S} (ev : env) (cs : list call) : M S unit :=
  match cs with
  | [] => ret tt
  | c :: rest => bind (do_call ev c) (fun _ => do_calls ev rest)
  end.

(** The calls of a trace, without their outcomes. *)
Definition calls (tr : trace) : list call := map fst tr.

End Trace.

Notation "x <- m ;; k" := (Trace.bind m (fun x => k))
(at level 61, m at next level, right associativity).
Notation "m ;;; k" := (Trace.bind m (fun _ => k))
(at level 61, right associativity).

(** ** indicators.py *)

Module Indicators.
Import Trace.

Record t : Type := {
  update : bool;
  w : Z;
  h : Z;
  battery : Z
}.

Definition set_update (v : bool) (self : t) : t :=
  {| update := v; w := w self; h := h self; battery := battery self |}.

Definition set_battery (v : Z) (self : t) : t :=
  {| update := update self; w := w self; h := h self; battery := v |}.

(** The object when [__init__] returns: [first] is what
    [drone.get_battery()] answered. *)
Definition init (width height first : Z) : t :=
  {| update := false; w := width; h := height; battery := first |}.

(** [self.drone.get_battery()], answering [r]. *)
Definition get_battery (r : Py.exn + Z) : M t Z :=
  fun s =>
    (s,
     [(GetBattery, match r with inl e => Raised e | inr _ => Returned end)],
     r).

(** The first statement of [update_indicators]. *)
Definition update_indicators_start : M t unit := modify (set_update true).

(** The test of [while self.update]. *)
Definition update_indicators_test : M t bool :=
  self <- get ;; ret (update self).

(** One pass through the body of the loop, in which [get_battery] answers
    [r]. *)
Definition update_indicators_body (r : Py.exn + Z) : M t unit :=
  emit (Print UpdatingIndicators) ;;;
  b <- get_battery r ;;
  modify (set_battery b) ;;;
  emit (Print (BatteryIs b)) ;;;
  emit (Sleep 1000).

(** One test of [while self.update] and, when it holds, one pass through the
    body.  Returns whether the loop goes on. *)
Definition update_indicators_iteration (r : Py.exn + Z) : M t bool :=
  continue <- update_indicators_test ;;
  if continue then update_indicators_body r ;;; ret true else ret false.

(** How a run of the loop over finitely many answers ends when nothing
    raises. *)
Inductive loop_end : Type :=
| StillPolling      (* the answers are used up, the loop goes on *)
| LoopExited.       (* [self.update] was found false *)

Fixpoint update_indicators_loop (answers : list (Py.exn + Z)) : M t loop_end :=
  match answers with
  | [] => ret StillPolling
  | r :: rest =>
      continue <- update_indicators_iteration r ;;
      if continue then update_indicators_loop rest else ret LoopExited
  end.

(** [update_indicators], the thread's target, with the successive answers of
    [get_battery].  There is no handler: an exception ends the thread. *)
Definition update_indicators (answers : list (Py.exn + Z)) : M t loop_end :=
  update_indicators_start ;;; update_indicators_loop answers.

Definition white : bgr := (255, 255, 255).
Definition green : bgr := (0, 255, 0).
Definition yellow : bgr := (0, 255, 255).
Definition red : bgr := (0, 0, 255).

(** One battery level bar: a vertical line at offset [dx]. *)
Definition bar (self : t) (color : bgr) (dx : Z) : call :=
  Cv2Line (w self / 128 + dx, h self / 32 + 30)
          (w self / 128 + dx, h self / 32 + 50) color 2.

(** The first [n] of the ten bars, left to right. *)
Definition bars (self : t) (color : bgr) (n : nat) : list call :=
  map (bar self color) (firstn n [5; 10; 15; 20; 25; 30; 35; 40; 45; 50]).

(** [draw_battery_indicator]: the cv2 calls it makes on the frame. *)
Definition draw_battery_indicator (self : t) : list call :=
  let b := battery self in
  [ Cv2Rectangle (w self / 128 + 3, h self / 32 + 29)
                 (w self / 128 + 52, h self / 32 + 51) white (-1);
    Cv2Rectangle (w self / 128 + 52, h self / 32 + 35)
                 (w self / 128 + 55, h self / 32 + 45) white (-1) ]
  ++ (if b >=? 70 then
        let color := green in
        if b =? 100 then bars self color 10
        else if (90 <=? b) && (b <? 100) then bars self color 9
        else if (80 <=? b) && (b <? 90) then bars self color 8
        else bars self color 7
      else if (40 <=? b) && (b <? 70) then
        let color := yellow in
        if b >=? 60 then bars self color 6
        else if (50 <=? b) && (b <? 60) then bars self color 5
        else bars self color 4
      else
        let color := red in
        if b >=? 30 then bars self color 3
        else if (20 <=? b) && (b <? 30) then bars self color 2
        else bars self color 1)
  ++ [ Cv2PutText b (w self / 128 + 60, h self / 32 + 45) (43, 157, 255) 1 ].

(** The bars among the calls: their colours, in order. *)
Definition segment_colors (cs : list call) : list bgr :=
  flat_map (fun c => match c with
                     | Cv2Line _ _ color _ => [color]
                     | _ => []
                     end) cs.

End Indicators.

(** ** app.py *)

Module App.
Import Trace.

Record t : Type := {
  flying : bool;
  h : Z;
  w : Z;
  rc_controls : list Z;
  xbox_controller : XboxController.t;
  indicators : Indicators.t
}.

Definition set_rc_controls (v : list Z) (self : t) : t :=
  {| flying := flying self; h := h self; w := w self; rc_controls := v;
     xbox_controller := xbox_controller self;
     indicators := indicators self |}.

Definition set_xbox_controller (v : XboxController.t) (self : t) : t :=
  {| flying := flying self; h := h self; w := w self;
     rc_controls := rc_controls self;
     xbox_controller := v; indicators := indicators self |}.

Definition set_indicators (v : Indicators.t) (self : t) : t :=
  {| flying := flying self; h := h self; w := w self;
     rc_controls := rc_controls self;
     xbox_controller := xbox_controller self; indicators := v |}.

(** The object when [__init__] returns: [first] is the battery level the
    drone answered to [Indicators.__init__]. *)
Definition init (first : Z) : t :=
  {| flying := false;
     h := 480;
     w := 720;
     rc_controls := [0; 0; 0; 0];
     xbox_controller := XboxController.init;
     indicators := Indicators.init 720 480 first |}.

(** [takeoff_land]: a thread for [land] or [takeoff], chosen by the drone's
    own [is_flying]. *)
Definition takeoff_land (ev : env) : M t unit :=
  if drone_is_flying ev then do_call ev (ThreadStart DroneLand)
  else do_call ev (ThreadStart DroneTakeoff).

(** [self.rc_controls[i] = v]. *)
Definition set_rc_control (i : nat) (v : Z) : M t unit :=
  self <- get ;;
  l <- or_raise "IndexError" (Py.setitem (rc_controls self) i v) ;;
  modify (set_rc_controls l).

(** [l[i]]. *)
Definition index {S} (l : list Z) (i : nat) : M S Z :=
  or_raise "IndexError" (Py.getitem l i).

(** [update_joystick]. *)
Definition update_joystick (ev : env) : M t unit :=
  try_except
    (self <- get ;;
     let joystick_values := XboxController.read (xbox_controller self) in
     left_joystick_x <- index joystick_values 0 ;;
     left_joystick_y <- index joystick_values 1 ;;
     right_joystick_x <- index joystick_values 2 ;;
     right_joystick_y <- index joystick_values 3 ;;
     start_button <- index joystick_values 14 ;;
     (if Py.truthy start_button then
        takeoff_land ev ;;; emit (Sleep 150)
      else ret tt) ;;;
     set_rc_control 0 right_joystick_x ;;;
     set_rc_control 1 right_joystick_y ;;;
     set_rc_control 2 left_joystick_y ;;;
     set_rc_control 3 left_joystick_x ;;;
     self <- get ;;
     (if negb (Py.list_eqb (rc_controls self) [0; 0; 0; 0]) then
        lr <- index (rc_controls self) 0 ;;
        fb <- index (rc_controls self) 1 ;;
        ud <- index (rc_controls self) 2 ;;
        yaw <- index (rc_controls self) 3 ;;
        do_call ev (SendRcControl lr fb ud yaw)
      else do_call ev (SendRcControl 0 0 0 0)) ;;;
     do_call ev (After Root 50 UpdateJoystick))
    (fun e => emit (Print (JoystickUpdateException e))).

(** [video_stream]. *)
Definition video_stream (ev : env) : M t unit :=
  try_except
    (self <- get ;;
     do_call ev (Cv2Resize (w self) (h self)) ;;;
     do_calls ev (Indicators.draw_battery_indicator (indicators self)) ;;;
     do_call ev Cv2CvtColor ;;;
     do_call ev ImageFromarray ;;;
     do_call ev PhotoImage ;;;
     do_call ev CapLblPack ;;;
     do_call ev CapLblConfigure ;;;
     do_call ev (After CapLbl 5 VideoStream))
    (fun e => emit (Print (VideoStreamException e))).

(** [cleanup]. [exit()] raises [SystemExit]. *)
Definition cleanup (ev : env) : M t unit :=
  try_except
    (emit (Print CleaningUpResources) ;;;
     modify (fun self =>
               set_indicators (Indicators.set_update false (indicators self))
                              self) ;;;
     do_call ev DroneEnd ;;;
     do_call ev RootQuit ;;;
     (fun s => (s, [(Exit, Raised Py.SystemExit)], inl Py.SystemExit)))
    (fun e => emit (Print (ErrorPerformingCleanup e))).

(** [run_app].  [mainloop] is one call here: the callbacks that Tk runs inside
    it are the [Tick] and [Frame] steps of the running program below.  The
    first calls of [video_stream] and [update_joystick], and [cleanup], each
    have their own environment. *)
Definition run_app (ev ev_video ev_joystick ev_cleanup : env) : M t unit :=
  try_finally
    (try_except
       (do_call ev CapLblPack ;;;
        video_stream ev_video ;;;
        update_joystick ev_joystick ;;;
        do_call ev Mainloop)
       (fun e => emit (Print (ErrorRunningApplication e))))
    (cleanup ev_cleanup).

(** Whether a trace registered the timer [wd.after(ms, cb)]. *)
Definition registered (wd : widget) (ms : Z) (cb : callback) (tr : trace) : bool :=
  existsb (fun x => match x with
                    | (After wd' ms' cb', Returned) =>
                        match wd, wd' with Root, Root | CapLbl, CapLbl => true | _, _ => false end
                        && (ms' =? ms)
                        && match cb, cb' with
                           | UpdateJoystick, UpdateJoystick
                           | VideoStream, VideoStream => true
                           | _, _ => false
                           end
                    | _ => false
                    end) tr.

(** The velocity commands among the calls of a trace. *)
Definition sent_commands (tr : trace) : list (Z * Z * Z * Z) :=
  flat_map (fun x => match fst x with
                     | SendRcControl lr fb ud yaw => [(lr, fb, ud, yaw)]
                     | _ => []
                     end) tr.

(** The takeoff and landing threads among the calls of a trace. *)
Definition dispatches (tr : trace) : list target :=
  flat_map (fun x => match fst x with
                     | ThreadStart tg => [tg]
                     | _ => []
                     end) tr.

End App.

(** ** The running program

  The gamepad monitor thread, the indicator thread and the Tk callbacks
  change the same objects; a run is an interleaving of their steps. *)

Module System.
Import Trace.

(** Where the indicator thread stands: before its first statement, at the
    test of its loop, inside the body after a test that held, returned, or
    ended by an exception. *)
Inductive thread_state : Type :=
| Starting
| Looping
| InBody
| Finished
| Died (e : Py.exn).

Record t : Type := {
  app : App.t;
  monitor_alive : bool;               (* the _monitor_controller thread *)
  indicator_thread : thread_state;    (* the update_indicators thread *)
  joystick_timer : bool;              (* update_joystick is due to run *)
  video_timer : bool;                 (* video_stream is due to run *)
  log : trace                         (* every call so far, oldest first *)
}.

(** After [App.__init__], when [run_app] is about to make the first calls of
    [video_stream] and [update_joystick]. *)
Definition init (first : Z) : t :=
  {| app := App.init first;
     monitor_alive := true;
     indicator_thread := Starting;
     joystick_timer := true;
     video_timer := true;
     log := [] |}.

Inductive action : Type :=
| Gamepad (ev : XboxController.event)   (* the monitor thread handles one event *)
| Poll (r : Py.exn + Z)                 (* the indicator thread takes its next step *)
| Tick (ev : env)                       (* update_joystick runs *)
| Frame (ev : env)                      (* video_stream runs *)
| Cleanup (ev : env).                   (* the main loop has ended: cleanup runs *)

Definition step (s : t) (a : action) : t :=
  match a with
  | Gamepad e =>
      if monitor_alive s then
        match XboxController.handle_event (App.xbox_controller (app s)) e with
        | Some c =>
            {| app := App.set_xbox_controller c (app s);
               monitor_alive := true;
               indicator_thread := indicator_thread s;
               joystick_timer := joystick_timer s;
               video_timer := video_timer s;
               log := log s |}
        | None =>
            {| app := app s;
               monitor_alive := false;
               indicator_thread := indicator_thread s;
               joystick_timer := joystick_timer s;
               video_timer := video_timer s;
               log := log s |}
        end
      else s
  | Poll r =>
      let next :=
        match indicator_thread s with
        | Starting =>
            Some (Indicators.update_indicators_start ;;; ret Looping)
        | Looping =>
            Some (continue <- Indicators.update_indicators_test ;;
                  ret (if continue then InBody else Finished))
        | InBody =>
            Some (Indicators.update_indicators_body r ;;; ret Looping)
        | Finished | Died _ => None
        end in
      match next with
      | None => s
      | Some m =>
          match m (App.indicators (app s)) with
          | (i, tr, res) =>
              {| app := App.set_indicators i (app s);
                 monitor_alive := monitor_alive s;
                 indicator_thread :=
                   match res with
                   | inl e => Died e
                   | inr st => st
                   end;
                 joystick_timer := joystick_timer s;
                 video_timer := video_timer s;
                 log := log s ++ tr |}
          end
      end
  | Tick ev =>
      if joystick_timer s then
        match App.update_joystick ev (app s) with
        | (a', tr, _) =>
            {| app := a';
               monitor_alive := monitor_alive s;
               indicator_thread := indicator_thread s;
               joystick_timer := App.registered Root 50 UpdateJoystick tr;
               video_timer := video_timer s;
               log := log s ++ tr |}
        end
      else s
  | Frame ev =>
      if video_timer s then
        match App.video_stream ev (app s) with
        | (a', tr, _) =>
            {| app := a';
               monitor_alive := monitor_alive s;
               indicator_thread := indicator_thread s;
               joystick_timer := joystick_timer s;
               video_timer := App.registered CapLbl 5 VideoStream tr;
               log := log s ++ tr |}
        end
      else s
  | Cleanup ev =>
      match App.cleanup ev (app s) with
      | (a', tr, _) =>
          {| app := a';
             monitor_alive := monitor_alive s;
             indicator_thread := indicator_thread s;
             joystick_timer := false;
             video_timer := false;
             log := log s ++ tr |}
      end
  end.

Definition run (s : t) (actions : list action) : t :=
  fold_left step actions s.

End System.

(** ** Vocabulary of the statements *)

Import Trace.

(** Every call of the computation satisfies [P], from any object. *)
Definition calls_only {S A : Type} (P : call -> Prop) (m : M S A) : Prop :=
  forall s, Forall (fun x => P (fst x)) (snd (fst (m s))).

(** The computation leaves the part [f] of the object as it was. *)
Definition keeps {S A X : Type} (f : S -> X) (m : M S A) : Prop :=
  forall s, f (fst (fst (m s))) = f s.

Definition is_stick (a : XboxController.attr) : bool :=
  match a with
  | XboxController.LeftJoystickY | XboxController.LeftJoystickX
  | XboxController.RightJoystickY | XboxController.RightJoystickX => true
  | _ => false
  end.

Definition is_send (c : call) : Prop :=
  match c with SendRcControl _ _ _ _ => True | _ => False end.
Definition is_dispatch (c : call) : Prop :=
  match c with ThreadStart _ => True | _ => False end.

(** [v] is zero or what the monitor thread stored for an axis event of the
    run: [_filter_noise (_normalize raw)]. *)
Definition from_axis (actions : list System.action) (v : Z) : Prop :=
  v = 0 \/
  exists e n,
    In (System.Gamepad e) actions /\
    XboxController.is_axis (XboxController.code e) = true /\
    XboxController._normalize (XboxController.state e) = Some n /\
    v = XboxController._filter_noise n.

(** The raw reading of an axis event lies in the joystick range. *)
Definition axis_in_range (e : XboxController.event) : Prop :=
  XboxController.is_axis (XboxController.code e) = true ->
  - 2 ^ 15 <= XboxController.state e <= 2 ^ 15.

Definition in_command_range (v : Z) : Prop := -100 <= v <= 100.

(** The Back button is up and no takeoff or landing thread was started. *)
Definition back_up_inv (s : System.t) : Prop :=
  App.xbox_controller (System.app s) XboxController.Back = 0 /\
  App.dispatches (System.log s) = [].

(** Environments and events for the examples. *)
Module Examples.
Import Trace.

(** Every call returns; the drone is on the ground. *)
Definition calm : env :=
  {| outcome_of := fun _ => Returned; drone_is_flying := false |}.

(** [send_rc_control] raises; every other call returns. *)
Definition send_fails : env :=
  {| outcome_of := fun c =>
       match c with
       | SendRcControl _ _ _ _ => Raised (Py.Exception "send_rc_control failed")
       | _ => Returned
       end;
     drone_is_flying := false |}.

(** [drone.end()] raises; every other call returns. *)
Definition end_fails : env :=
  {| outcome_of := fun c =>
       match c with
       | DroneEnd => Raised (Py.Exception "drone disconnected")
       | _ => Returned
       end;
     drone_is_flying := false |}.

Definition press (c : string) : XboxController.event :=
  {| XboxController.code := c; XboxController.state := 1 |}.

Definition axis (c : string) (raw : Z) : XboxController.event :=
  {| XboxController.code := c; XboxController.state := raw |}.

End Examples.

(** Every call of the trace returned. *)
Definition all_returned (tr : Trace.trace) : bool :=
  forallb (fun x => match snd x with
                    | Trace.Returned => true
                    | Trace.Raised _ => false
                    end) tr.

(** The colour band of a battery percentage. *)
Definition band (p : Z) : Trace.bgr :=
  if p <? 40 then Indicators.red
  else if p <=? 69 then Indicators.yellow
  else Indicators.green.

(** The calls of one pass through the body of the indicator loop in which
    [get_battery] answers [b]. *)
Definition poll_calls (b : Z) : Trace.trace :=
  [ (Trace.Print Trace.UpdatingIndicators, Trace.Returned);
    (Trace.GetBattery, Trace.Returned);
    (Trace.Print (Trace.BatteryIs b), Trace.Returned);
    (Trace.Sleep 1000, Trace.Returned) ].

(** The invariant behind the bound on the commands: [rc_controls] has its four
    entries, the four stick attributes satisfy [Q], and so does every component
    of every command sent so far. *)
Definition sticks_inv (Q : Z -> Prop) (s : System.t) : Prop :=
  List.length (App.rc_controls (System.app s)) = 4%nat /\
  (forall a, is_stick a = true -> Q (App.xbox_controller (System.app s) a)) /\
  (forall lr fb ud yaw,
      In (lr, fb, ud, yaw) (App.sent_commands (System.log s)) ->
      Q lr /\ Q fb /\ Q ud /\ Q yaw).

(** The event codes of the buttons, with the index in the list of [read] of
    the attribute each one sets. *)
Definition button_index : list (string * nat) :=
  [ ("BTN_TL", 6); ("BTN_TR", 7); ("BTN_SOUTH", 8); ("BTN_WEST", 9);
    ("BTN_NORTH", 10); ("BTN_EAST", 11); ("BTN_THUMBL", 12);
    ("BTN_THUMBR", 13); ("BTN_SELECT", 14); ("BTN_START", 15);
    ("BTN_TRIGGER_HAPPY1", 16); ("BTN_TRIGGER_HAPPY2", 17);
    ("BTN_TRIGGER_HAPPY3", 18); ("BTN_TRIGGER_HAPPY4", 19) ]%string%nat.

(** The event codes of the axes, with the attribute each one sets. *)
Definition axis_attr : list (string * XboxController.attr) :=
  [ ("ABS_Y", XboxController.LeftJoystickY);
    ("ABS_X", XboxController.LeftJoystickX);
    ("ABS_RY", XboxController.RightJoystickY);
    ("ABS_RX", XboxController.RightJoystickX);
    ("ABS_Z", XboxController.LeftTrigger);
    ("ABS_RZ", XboxController.RightTrigger) ]%string.

(** The event codes that [_monitor_controller] tests for. *)
Definition known_code (c : string) : bool :=
  existsb (String.eqb c) (map fst axis_attr ++ map fst button_index).

(** The state of the last event with code [k], if there is one. *)
Fixpoint last_state (k : string) (evs : list XboxController.event) : option Z :=
  match evs with
  | [] => None
  | e :: rest =>
      match last_state k rest with
      | Some v => Some v
      | None =>
          if (XboxController.code e =? k)%string
          then Some (XboxController.state e) else None
      end
  end.

(** Whether a computation ended by returning. *)
Definition returned {A : Type} (r : Py.exn + A) : bool :=
  match r with
  | inr _ => true
  | inl _ => false
  end.

(** Whether an [Exception] (and not [SystemExit]) leaves a computation. *)
Definition escapes {A : Type} (r : Py.exn + A) : bool :=
  match r with
  | inl e => Py.is_Exception e
  | inr _ => false
  end.

(** The computation raises exactly when one of its calls raises. *)
Definition sound {S A : Type} (m : M S A) : Prop :=
  forall s, all_returned (snd (fst (m s))) = returned (snd (m s)).

(** The computation registers the timer exactly when it returns. *)
Definition ends_registered {S A : Type} (wd : widget) (ms : Z) (cb : callback)
           (m : M S A) : Prop :=
  forall s, App.registered wd ms cb (snd (fst (m s))) = returned (snd (m s)).

Definition is_after (c : call) : Prop :=
  match c with After _ _ _ => True | _ => False end.

(** The bars among the calls: the [cv2.line] calls, in order. *)
Definition drawn_bars (cs : list call) : list call :=
  filter (fun c => match c with Cv2Line _ _ _ _ => true | _ => false end) cs.

(** [n] bars of one colour: vertical lines of thickness 2 from [h // 32 + 30]
    to [h // 32 + 50], the [i]-th at [w // 128 + 5 * i]. *)
Definition expected_bars (self : Indicators.t) (color : bgr) (n : nat) : list call :=
  map (fun i =>
         Cv2Line (Indicators.w self / 128 + 5 * Z.of_nat i,
                  Indicators.h self / 32 + 30)
                 (Indicators.w self / 128 + 5 * Z.of_nat i,
                  Indicators.h self / 32 + 50) color 2)
      (seq 1 n).

Definition is_battery_read (c : call) : Prop :=
  match c with GetBattery => True | _ => False end.

(** The number of [get_battery] calls of a trace. *)
Definition battery_reads (tr : trace) : nat :=
  List.length (filter (fun x => match fst x with
                                | GetBattery => true
                                | _ => false
                                end) tr).

(** The [get_battery] call that the indicator thread still owes: one when it
    is inside the body of its loop. *)
Definition pending_read (st : System.thread_state) : nat :=
  match st with
  | System.InBody => 1
  | _ => 0
  end.

(** What the invariant of a stopped indicator loop says: the flag is down, the
    thread is past its first statement, and the reads made so far plus the one
    still owed stay within [budget]. *)
Definition stopping (budget : nat) (s : System.t) : Prop :=
  Indicators.update (App.indicators (System.app s)) = false /\
  System.indicator_thread s <> System.Starting /\
  (battery_reads (System.log s) + pending_read (System.indicator_thread s)
   <= budget)%nat.

(** * Properties *)

(** ** The controller *)

Lemma agrees_on_sound (d : nat) :
  forall base, XboxController.agrees_on d base = true ->
  forall r, base <= r < base + 2 ^ Z.of_nat d ->
  XboxController.normalize_agrees r = true.
Proof.
  induction d as [|d IH]; intros base H r Hr.
  - simpl in *. assert (r = base) by lia. subst. exact H.
  - cbn [XboxController.agrees_on] in H.
    apply andb_true_iff in H. destruct H as [H1 H2].
    rewrite Nat2Z.inj_succ, Z.pow_succ_r in Hr by lia.
    destruct (Z_lt_ge_dec r (base + 2 ^ Z.of_nat d)).
    + apply (IH base H1). lia.
    + apply (IH _ H2). lia.
Qed.

Lemma agrees_on_joystick_range :
  XboxController.agrees_on 16 (-32768) = true.
Proof. vm_compute. reflexivity. Qed.

Lemma _normalize_exact (r : Z) :
  -32768 <= r <= 32768 ->
  XboxController._normalize r = Some ((r * 100) ÷ 32768).
Proof.
  intros Hr.
  assert (Hag : XboxController.normalize_agrees r = true).
  { destruct (Z.eq_dec r 32768) as [->|Hne].
    - vm_compute. reflexivity.
    - apply (agrees_on_sound 16 (-32768) agrees_on_joystick_range).
      change (2 ^ Z.of_nat 16) with 65536. lia. }
  unfold XboxController.normalize_agrees in Hag.
  destruct (XboxController._normalize r) as [q|]; [|discriminate].
  apply Z.eqb_eq in Hag. now subst.
Qed.

Lemma quot_bounds (r : Z) :
  -32768 <= r <= 32768 -> -100 <= (r * 100) ÷ 32768 <= 100.
Proof. intros Hr. Z.to_euclidean_division_equations; lia. Qed.

Lemma _normalize_bounded (r : Z) :
  - 2 ^ 15 <= r <= 2 ^ 15 ->
  exists n, XboxController._normalize r = Some n /\ -100 <= n <= 100.
Proof.
  change (2 ^ 15) with 32768. intros Hr.
  exists ((r * 100) ÷ 32768). split.
  - now apply _normalize_exact.
  - now apply quot_bounds.
Qed.

Lemma _filter_noise_cases (v : Z) :
  (Z.abs v <= 15 /\ XboxController._filter_noise v = 0) \/
  (15 < Z.abs v /\ XboxController._filter_noise v = v).
Proof.
  unfold XboxController._filter_noise.
  destruct (Z.leb_spec (Z.abs v) 15); [left | right]; split; trivial.
Qed.

Lemma _filter_noise_bounded (v : Z) :
  -100 <= v <= 100 -> -100 <= XboxController._filter_noise v <= 100.
Proof. destruct (_filter_noise_cases v) as [[_ ->]|[_ ->]]; lia. Qed.

Ltac break_ifs :=
  repeat match goal with
         | H : context [if ?b then _ else _] |- _ => destruct b eqn:?
         end.

Lemma handle_event_stick (c c' : XboxController.t) (e : XboxController.event)
      (a : XboxController.attr) :
  is_stick a = true ->
  XboxController.handle_event c e = Some c' ->
  c' a = c a \/
  (XboxController.is_axis (XboxController.code e) = true /\
   exists n, XboxController._normalize (XboxController.state e) = Some n /\
             c' a = XboxController._filter_noise n).
Proof.
  intros Ha H. unfold XboxController.handle_event in H.
  unfold XboxController.is_axis.
  break_ifs;
    try (injection H as <-; left; destruct a; try discriminate Ha; reflexivity).
  all: unfold XboxController.store_axis in H;
    destruct (XboxController._normalize _) as [n|] eqn:Hn; [|discriminate];
    injection H as <-;
    destruct a; try discriminate Ha; cbn;
    try (left; reflexivity);
    right; (split; [repeat (rewrite ?orb_true_r; cbn); reflexivity| exists n; split; [first [exact Hn | reflexivity]|reflexivity]]).
Qed.

Lemma handle_event_button (c c' : XboxController.t) (e : XboxController.event) :
  XboxController.handle_event c e = Some c' ->
  XboxController.code e <> "BTN_SELECT"%string ->
  c' XboxController.Back = c XboxController.Back.
Proof.
  intros H Hne. unfold XboxController.handle_event in H.
  break_ifs;
    try (injection H as <-; reflexivity);
    try (unfold XboxController.store_axis in H;
    destruct (XboxController._normalize _) as [n|] eqn:Hn; [|discriminate];
    injection H as <-; reflexivity).
  match goal with
  | H : (_ =? "BTN_SELECT")%string = true |- _ =>
      apply String.eqb_eq in H; contradiction
  end.
Qed.

(** ** Computations and their calls *)

Section MonadFacts.
Context {S : Type}.

Lemma calls_only_ret {A} P (a : A) : calls_only P (@ret S A a).
Proof. intros s. constructor. Qed.

Lemma calls_only_get P : calls_only P (@get S).
Proof. intros s. constructor. Qed.

Lemma calls_only_modify P f : calls_only P (@modify S f).
Proof. intros s. constructor. Qed.

Lemma calls_only_raise {A} P e : calls_only P (@raise S A e).
Proof. intros s. constructor. Qed.

Lemma calls_only_or_raise {A} P what (o : option A) :
  calls_only P (@or_raise S A what o).
Proof. destruct o; [apply calls_only_ret | apply calls_only_raise]. Qed.

Lemma calls_only_emit (P : call -> Prop) c : P c -> calls_only P (@emit S c).
Proof. intros Hc s. repeat constructor. exact Hc. Qed.

Lemma calls_only_do_call (P : call -> Prop) ev c :
  P c -> calls_only P (@do_call S ev c).
Proof. intros Hc s. repeat constructor. exact Hc. Qed.

Lemma calls_only_bind {A B} P (m : M S A) (f : A -> M S B) :
  calls_only P m -> (forall a, calls_only P (f a)) -> calls_only P (bind m f).
Proof.
  intros Hm Hf s. unfold bind. specialize (Hm s).
  destruct (m s) as [[s1 t1] [e|a]]; cbn in *; trivial.
  specialize (Hf a s1). destruct (f a s1) as [[s2 t2] r]; cbn in *.
  apply Forall_app. now split.
Qed.

Lemma calls_only_try_except {A} P (m : M S A) h :
  calls_only P m -> (forall e, calls_only P (h e)) ->
  calls_only P (try_except m h).
Proof.
  intros Hm Hh s. unfold try_except. specialize (Hm s).
  destruct (m s) as [[s1 t1] [e|a]]; cbn in *; trivial.
  destruct (Py.is_Exception e); cbn; trivial.
  specialize (Hh e s1). destruct (h e s1) as [[s2 t2] r]; cbn in *.
  apply Forall_app. now split.
Qed.

Lemma calls_only_do_calls (P : call -> Prop) ev cs :
  Forall P cs -> calls_only P (@do_calls S ev cs).
Proof.
  induction 1 as [|c cs Hc _ IH]; cbn [do_calls].
  - apply calls_only_ret.
  - apply calls_only_bind; [now apply calls_only_do_call | intros _; exact IH].
Qed.

Lemma keeps_ret {A X} (f : S -> X) (a : A) : keeps f (@ret S A a).
Proof. intros s. reflexivity. Qed.

Lemma keeps_get {X} (f : S -> X) : keeps f (@get S).
Proof. intros s. reflexivity. Qed.

Lemma keeps_raise {A X} (f : S -> X) e : keeps f (@raise S A e).
Proof. intros s. reflexivity. Qed.

Lemma keeps_or_raise {A X} (f : S -> X) what (o : option A) :
  keeps f (@or_raise S A what o).
Proof. destruct o; [apply keeps_ret | apply keeps_raise]. Qed.

Lemma keeps_emit {X} (f : S -> X) c : keeps f (@emit S c).
Proof. intros s. reflexivity. Qed.

Lemma keeps_do_call {X} (f : S -> X) ev c : keeps f (@do_call S ev c).
Proof. intros s. reflexivity. Qed.

Lemma keeps_modify {X} (f : S -> X) g :
  (forall s, f (g s) = f s) -> keeps f (@modify S g).
Proof. intros H s. apply H. Qed.

Lemma keeps_bind {A B X} (f : S -> X) (m : M S A) (k : A -> M S B) :
  keeps f m -> (forall a, keeps f (k a)) -> keeps f (bind m k).
Proof.
  intros Hm Hk s. unfold bind. specialize (Hm s).
  destruct (m s) as [[s1 t1] [e|a]]; cbn in *; trivial.
  specialize (Hk a s1). destruct (k a s1) as [[s2 t2] r]; cbn in *.
  congruence.
Qed.

Lemma keeps_try_except {A X} (f : S -> X) (m : M S A) h :
  keeps f m -> (forall e, keeps f (h e)) -> keeps f (try_except m h).
Proof.
  intros Hm Hh s. unfold try_except. specialize (Hm s).
  destruct (m s) as [[s1 t1] [e|a]]; cbn in *; trivial.
  destruct (Py.is_Exception e); cbn; trivial.
  specialize (Hh e s1). destruct (h e s1) as [[s2 t2] r]; cbn in *.
  congruence.
Qed.

Lemma keeps_do_calls {X} (f : S -> X) ev cs : keeps f (@do_calls S ev cs).
Proof.
  induction cs as [|c cs IH]; cbn [do_calls].
  - apply keeps_ret.
  - apply keeps_bind; [apply keeps_do_call | intros _; exact IH].
Qed.

End MonadFacts.

Create HintDb monad_facts.
#[export] Hint Resolve calls_only_ret calls_only_get calls_only_modify
  calls_only_raise calls_only_or_raise calls_only_emit calls_only_do_call
  calls_only_do_calls keeps_ret keeps_get keeps_raise keeps_or_raise
  keeps_emit keeps_do_call keeps_do_calls : monad_facts.

(** Walks through a computation built from [bind], [try_except] and
    conditionals, leaving the facts about single calls and assignments. *)
Ltac walk_with tac :=
  repeat first
    [ solve [tac]
    | apply calls_only_bind; [|intros ?]
    | apply calls_only_try_except; [|intros ?]
    | apply keeps_bind; [|intros ?]
    | apply keeps_try_except; [|intros ?]
    | match goal with
      | |- calls_only _ (if ?b then _ else _) => destruct b
      | |- keeps _ (if ?b then _ else _) => destruct b
      end ].

Ltac single_call :=
  first [apply calls_only_do_call | apply calls_only_emit]; cbn; tauto.

Ltac walk := walk_with ltac:(first [single_call | auto with monad_facts]).

Lemma setitem_length {A} (l l' : list A) i v :
  Py.setitem l i v = Some l' -> List.length l' = List.length l.
Proof.
  revert l' i. induction l as [|x l IH]; intros l' i H; [discriminate|].
  destruct i as [|i]; cbn in H.
  - injection H as <-. reflexivity.
  - destruct (Py.setitem l i v) as [t|] eqn:Ht; [|discriminate].
    injection H as <-. cbn. f_equal. eauto.
Qed.

Lemma set_rc_control_keeps_length i v :
  keeps (fun a => List.length (App.rc_controls a)) (App.set_rc_control i v).
Proof.
  intros a. unfold App.set_rc_control, bind, get, or_raise.
  destruct (Py.setitem (App.rc_controls a) i v) as [l|] eqn:Hl; cbn; trivial.
  eapply setitem_length; eauto.
Qed.

Lemma set_rc_control_keeps {X} (f : App.t -> X) i v :
  (forall l a, f (App.set_rc_controls l a) = f a) ->
  keeps f (App.set_rc_control i v).
Proof.
  intros Hf. unfold App.set_rc_control. walk. now apply keeps_modify.
Qed.

Lemma update_joystick_keeps_length ev :
  keeps (fun a => List.length (App.rc_controls a)) (App.update_joystick ev).
Proof.
  unfold App.update_joystick, App.takeoff_land, App.index.
  walk_with ltac:(auto using set_rc_control_keeps_length with monad_facts).
Qed.

Lemma update_joystick_keeps {X} (f : App.t -> X) ev :
  (forall l a, f (App.set_rc_controls l a) = f a) ->
  keeps f (App.update_joystick ev).
Proof.
  intros Hf. unfold App.update_joystick, App.takeoff_land, App.index.
  walk_with ltac:(auto using set_rc_control_keeps with monad_facts).
Qed.

Lemma draw_battery_indicator_cv2 (i : Indicators.t) :
  Forall (fun c => ~ is_send c /\ ~ is_dispatch c)
         (Indicators.draw_battery_indicator i).
Proof.
  unfold Indicators.draw_battery_indicator.
  repeat match goal with |- context [if ?b then _ else _] => destruct b end;
    cbn; repeat constructor; auto.
Qed.

Lemma video_stream_keeps ev : keeps (fun a => a) (App.video_stream ev).
Proof. unfold App.video_stream. walk. Qed.

Lemma video_stream_calls ev :
  calls_only (fun c => ~ is_send c /\ ~ is_dispatch c) (App.video_stream ev).
Proof.
  unfold App.video_stream.
  walk_with ltac:(first [single_call
                        | auto using draw_battery_indicator_cv2 with monad_facts]).
Qed.

Lemma cleanup_calls ev :
  calls_only (fun c => ~ is_send c /\ ~ is_dispatch c) (App.cleanup ev).
Proof.
  unfold App.cleanup. walk.
  intros s. repeat constructor; cbn; tauto.
Qed.

Lemma cleanup_keeps {X} (f : App.t -> X) ev :
  (forall i a, f (App.set_indicators i a) = f a) ->
  keeps f (App.cleanup ev).
Proof.
  intros Hf. unfold App.cleanup. walk.
  - apply keeps_modify. intros s. apply Hf.
  - intros s. reflexivity.
Qed.

Lemma body_calls r :
  calls_only (fun c => ~ is_send c /\ ~ is_dispatch c)
             (Indicators.update_indicators_body r).
Proof.
  unfold Indicators.update_indicators_body. walk.
  intros s. repeat constructor; cbn; tauto.
Qed.

(** ** The dispatch tick *)

Ltac reduce_M :=
  cbv beta iota zeta delta
    [try_except try_finally bind get ret modify emit do_call or_raise raise
     App.update_joystick App.index App.set_rc_control App.takeoff_land
     App.cleanup
     App.set_rc_controls App.set_indicators App.set_xbox_controller
     App.rc_controls App.xbox_controller App.indicators App.flying App.h App.w
     App.sent_commands App.dispatches App.registered
     Indicators.update_indicators_iteration Indicators.update_indicators_start
     Indicators.update_indicators_test Indicators.update_indicators_body
     Indicators.get_battery Indicators.set_update Indicators.set_battery
     Indicators.update Indicators.battery Indicators.w Indicators.h
     Py.getitem Py.setitem nth_error XboxController.read
     negb andb orb existsb app fst snd map flat_map calls].

Ltac split_M :=
  match goal with
  | |- context [Py.truthy ?x] => destruct (Py.truthy x) eqn:?
  | |- context [drone_is_flying ?ev] => destruct (drone_is_flying ev) eqn:?
  | |- context [outcome_of ?ev ?c] => destruct (outcome_of ev c) eqn:?
  | |- context [Py.is_Exception ?e] => destruct e; cbn [Py.is_Exception]
  | |- context [Py.list_eqb ?a ?b] => destruct (Py.list_eqb a b) eqn:?
  end.

Ltac run_M := reduce_M; repeat (split_M; reduce_M).

(** Every shape the list [rc_controls] can have, as far as the code looks. *)
Ltac any_rc a :=
  destruct a as [?fl ?hh ?ww rc ?xc ?ind];
  destruct rc as [|?r [|?r [|?r [|?r [|?r ?l]]]]].

Lemma list_eqb_zero4 a b c d :
  Py.list_eqb [a; b; c; d] [0; 0; 0; 0] = true ->
  a = 0 /\ b = 0 /\ c = 0 /\ d = 0.
Proof. cbn. rewrite !andb_true_iff, !Z.eqb_eq. tauto. Qed.

Lemma length4 {A} (l : list A) :
  List.length l = 4%nat -> exists a b c d, l = [a; b; c; d].
Proof.
  destruct l as [|a [|b [|c [|d [|x l]]]]]; try discriminate. eauto.
Qed.

Lemma update_joystick_sent ev a :
  List.length (App.rc_controls a) = 4%nat ->
  forall cmd,
    In cmd (App.sent_commands (snd (fst (App.update_joystick ev a)))) ->
    cmd = (App.xbox_controller a XboxController.RightJoystickX,
           App.xbox_controller a XboxController.RightJoystickY,
           App.xbox_controller a XboxController.LeftJoystickY,
           App.xbox_controller a XboxController.LeftJoystickX).
Proof.
  intros Hrc. destruct (length4 _ Hrc) as (r0 & r1 & r2 & r3 & Hl).
  destruct a as [fl hh ww rc xc ind]; cbn in Hl; subst rc.
  intros cmd. run_M.
  all: intros Hin;
    repeat (destruct Hin as [Hin|Hin]; [symmetry in Hin|]);
    try contradiction; subst; try reflexivity.
  all: match goal with
       | H : Py.list_eqb _ _ = true |- _ =>
           apply list_eqb_zero4 in H; destruct H as (?&?&?&?)
       end; congruence.
Qed.

Lemma update_joystick_dispatches ev a :
  App.dispatches (snd (fst (App.update_joystick ev a))) =
  if Py.truthy (App.xbox_controller a XboxController.Back) then
    [if drone_is_flying ev then DroneLand else DroneTakeoff]
  else [].
Proof. any_rc a; run_M; reflexivity. Qed.

Lemma sent_commands_app t1 t2 :
  App.sent_commands (t1 ++ t2) = App.sent_commands t1 ++ App.sent_commands t2.
Proof. apply flat_map_app. Qed.

Lemma dispatches_app t1 t2 :
  App.dispatches (t1 ++ t2) = App.dispatches t1 ++ App.dispatches t2.
Proof. apply flat_map_app. Qed.

Lemma quiet_trace (tr : trace) :
  Forall (fun x => ~ is_send (fst x) /\ ~ is_dispatch (fst x)) tr ->
  App.sent_commands tr = [] /\ App.dispatches tr = [].
Proof.
  induction 1 as [|[c o] tr [Hs Hd] _ [IH1 IH2]]; [split; reflexivity|].
  unfold App.sent_commands, App.dispatches in *. cbn [flat_map fst].
  rewrite IH1, IH2. destruct c; cbn in *; tauto.
Qed.

Lemma run_invariant (P : System.t -> Prop) (ok : System.action -> Prop) :
  (forall s a, ok a -> P s -> P (System.step s a)) ->
  forall actions s,
    P s -> (forall a, In a actions -> ok a) -> P (System.run s actions).
Proof.
  intros Hstep actions. induction actions as [|a rest IH]; intros s Hs Hok.
  - exact Hs.
  - cbn. apply IH.
    + apply Hstep; [apply Hok; now left | exact Hs].
    + intros b Hb. apply Hok. now right.
Qed.

(** What a step does to the application object and to the log, action by
    action. *)
Lemma step_poll_spec s r :
  exists i tr,
    App.set_indicators i (System.app s) = System.app (System.step s (System.Poll r))
    /\ System.log (System.step s (System.Poll r)) = System.log s ++ tr
    /\ App.sent_commands tr = [] /\ App.dispatches tr = [].
Proof.
  cbn [System.step]. destruct (System.indicator_thread s).
  - (* the first statement *)
    eexists; eexists. cbn. repeat split.
  - (* the test *)
    eexists; eexists. cbn. repeat split.
  - (* the body *)
    pose proof (calls_only_bind _ _ (fun _ => @ret Indicators.t _ System.Looping)
                  (body_calls r) (fun _ => calls_only_ret _ _)
                  (App.indicators (System.app s))) as Hq.
    destruct (Trace.bind _ _ _) as [[i tr] res]. cbn in *.
    exists i, tr. repeat split; trivial; now apply quiet_trace.
  - exists (App.indicators (System.app s)), []. rewrite app_nil_r.
    destruct (System.app s). repeat split.
  - exists (App.indicators (System.app s)), []. rewrite app_nil_r.
    destruct (System.app s). repeat split.
Qed.

(** ** Runs of the program *)

Section StickInvariant.
Variable Q : Z -> Prop.
Variable ok : System.action -> Prop.
Hypothesis Q_zero : Q 0.
Hypothesis Q_axis :
  forall e n, ok (System.Gamepad e) ->
    XboxController.is_axis (XboxController.code e) = true ->
    XboxController._normalize (XboxController.state e) = Some n ->
    Q (XboxController._filter_noise n).

Lemma sticks_inv_init first : sticks_inv Q (System.init first).
Proof.
  repeat split; try contradiction.
  intros a _. exact Q_zero.
Qed.

Lemma sticks_inv_step s a : ok a -> sticks_inv Q s -> sticks_inv Q (System.step s a).
Proof.
  intros Hok Hinv. pose proof Hinv as (Hlen & Hst & Hlog).
  destruct a as [e|r|ev|ev|ev].
  - (* the monitor thread *)
    cbn [System.step]. destruct (System.monitor_alive s); [|exact Hinv].
    destruct (XboxController.handle_event _ e) as [c|] eqn:Hc;
      [|exact Hinv].
    split; [exact Hlen | split; [|exact Hlog]].
    cbn. intros a Ha.
    destruct (handle_event_stick _ _ _ a Ha Hc) as [->|(Hax & n & Hn & ->)];
      eauto.
  - (* the indicator thread *)
    destruct (step_poll_spec s r) as (i & tr & Happ & Htr & Hs & _).
    unfold sticks_inv. rewrite <- Happ, Htr, sent_commands_app, Hs, app_nil_r.
    exact Hinv.
  - (* update_joystick *)
    cbn [System.step]. destruct (System.joystick_timer s); [|exact Hinv].
    pose proof (update_joystick_keeps_length ev (System.app s)) as Hk1.
    pose proof (update_joystick_keeps App.xbox_controller ev
                  (fun _ _ => eq_refl) (System.app s)) as Hk2.
    pose proof (update_joystick_sent ev (System.app s) Hlen) as Hsent.
    destruct (App.update_joystick ev (System.app s)) as [[a' tr] res].
    cbn in Hk1, Hk2, Hsent. split; [|split]; cbn.
    + congruence.
    + intros a Ha. rewrite Hk2. auto.
    + intros lr fb ud yaw. rewrite sent_commands_app, in_app_iff.
      intros [Hin|Hin]; [eauto|].
      apply Hsent in Hin. injection Hin as -> -> -> ->.
      repeat split; now apply Hst.
  - (* video_stream *)
    cbn [System.step]. destruct (System.video_timer s); [|exact Hinv].
    pose proof (video_stream_keeps ev (System.app s)) as Hk.
    pose proof (video_stream_calls ev (System.app s)) as Hq.
    destruct (App.video_stream ev (System.app s)) as [[a' tr] res].
    cbn in Hk, Hq. subst a'. apply quiet_trace in Hq. destruct Hq as [Hq _].
    unfold sticks_inv. cbn. rewrite sent_commands_app, Hq, app_nil_r.
    exact Hinv.
  - (* cleanup *)
    cbn [System.step].
    pose proof (cleanup_keeps App.rc_controls ev (fun _ _ => eq_refl)
                  (System.app s)) as Hk1.
    pose proof (cleanup_keeps App.xbox_controller ev (fun _ _ => eq_refl)
                  (System.app s)) as Hk2.
    pose proof (cleanup_calls ev (System.app s)) as Hq.
    destruct (App.cleanup ev (System.app s)) as [[a' tr] res].
    cbn in Hk1, Hk2, Hq. apply quiet_trace in Hq. destruct Hq as [Hq _].
    unfold sticks_inv. cbn. rewrite sent_commands_app, Hq, app_nil_r, Hk1, Hk2.
    exact Hinv.
Qed.

End StickInvariant.

Lemma from_axis_bounded actions v :
  (forall e, In (System.Gamepad e) actions -> axis_in_range e) ->
  from_axis actions v -> in_command_range v.
Proof.
  intros Hr [->|(e & n & Hin & Hax & Hn & ->)]; [unfold in_command_range; lia|].
  destruct (_normalize_bounded _ (Hr e Hin Hax)) as (n' & Hn' & Hb).
  assert (n' = n) by congruence. subst n'.
  now apply _filter_noise_bounded.
Qed.

(** C1: in every run whose raw axis readings lie in [-2^15, 2^15], each
    component (lateral, forward/back, vertical, yaw) of each velocity command
    handed to [send_rc_control] lies in [-100, 100]; each component is zero or
    [_filter_noise (_normalize raw)] for the raw reading of an axis event of
    the run. *)
Theorem sent_commands_within_range (first : Z) (actions : list System.action) :
  (forall e, In (System.Gamepad e) actions -> axis_in_range e) ->
  forall lr fb ud yaw,
    In (lr, fb, ud, yaw)
       (App.sent_commands (System.log (System.run (System.init first) actions))) ->
    (in_command_range lr /\ from_axis actions lr) /\
    (in_command_range fb /\ from_axis actions fb) /\
    (in_command_range ud /\ from_axis actions ud) /\
    (in_command_range yaw /\ from_axis actions yaw).
Proof.
  intros Hr lr fb ud yaw Hin.
  assert (Hinv : sticks_inv (from_axis actions) (System.run (System.init first) actions)).
  { assert (H0 : from_axis actions 0) by now left.
    assert (Hax : forall e n, In (System.Gamepad e) actions ->
              XboxController.is_axis (XboxController.code e) = true ->
              XboxController._normalize (XboxController.state e) = Some n ->
              from_axis actions (XboxController._filter_noise n))
      by (intros e n He Hc Hn; right; exists e, n; auto).
    apply (run_invariant _ (fun a => In a actions)).
    - intros s a Ha Hs.
      exact (sticks_inv_step _ (fun a => In a actions) Hax s a Ha Hs).
    - now apply sticks_inv_init.
    - auto. }
  destruct Hinv as (_ & _ & Hlog).
  destruct (Hlog _ _ _ _ Hin) as (H1 & H2 & H3 & H4).
  repeat split; trivial; eapply from_axis_bounded; eauto.
Qed.

Lemma sent_commands_within_range_witness :
  (in_command_range 50 /\
   from_axis [System.Gamepad (Examples.axis "ABS_RX" 16384);
              System.Tick Examples.calm] 50) /\
  (in_command_range 0 /\
   from_axis [System.Gamepad (Examples.axis "ABS_RX" 16384);
              System.Tick Examples.calm] 0) /\
  (in_command_range 0 /\
   from_axis [System.Gamepad (Examples.axis "ABS_RX" 16384);
              System.Tick Examples.calm] 0) /\
  (in_command_range 0 /\
   from_axis [System.Gamepad (Examples.axis "ABS_RX" 16384);
              System.Tick Examples.calm] 0).
Proof.
  apply (sent_commands_within_range 80
           [System.Gamepad (Examples.axis "ABS_RX" 16384);
            System.Tick Examples.calm]).
  - intros e [H|[H|[]]]; [|discriminate H].
    injection H as <-. intros _. cbn. lia.
  - vm_compute. left. reflexivity.
Defined.

Lemma back_up_inv_step s a :
  (forall e, a = System.Gamepad e -> XboxController.code e <> "BTN_SELECT"%string) ->
  back_up_inv s -> back_up_inv (System.step s a).
Proof.
  intros Hok Hinv. pose proof Hinv as (Hb & Hd).
  destruct a as [e|r|ev|ev|ev].
  - cbn [System.step]. destruct (System.monitor_alive s); [|exact Hinv].
    destruct (XboxController.handle_event _ e) as [c|] eqn:Hc; [|exact Hinv].
    split; [|exact Hd]. cbn.
    rewrite (handle_event_button _ _ _ Hc (Hok e eq_refl)). exact Hb.
  - destruct (step_poll_spec s r) as (i & tr & Happ & Htr & _ & Hq).
    unfold back_up_inv. rewrite <- Happ, Htr, dispatches_app, Hq, app_nil_r.
    exact Hinv.
  - cbn [System.step]. destruct (System.joystick_timer s); [|exact Hinv].
    pose proof (update_joystick_keeps App.xbox_controller ev
                  (fun _ _ => eq_refl) (System.app s)) as Hk.
    pose proof (update_joystick_dispatches ev (System.app s)) as Hq.
    rewrite Hb in Hq. change (Py.truthy 0) with false in Hq. cbv iota in Hq.
    destruct (App.update_joystick ev (System.app s)) as [[a' tr] res].
    cbn [fst snd] in Hk, Hq.
    unfold back_up_inv. cbn. rewrite dispatches_app, Hq, app_nil_r, Hk.
    exact Hinv.
  - cbn [System.step]. destruct (System.video_timer s); [|exact Hinv].
    pose proof (video_stream_keeps ev (System.app s)) as Hk.
    pose proof (video_stream_calls ev (System.app s)) as Hq.
    destruct (App.video_stream ev (System.app s)) as [[a' tr] res].
    cbn in Hk, Hq. subst a'. apply quiet_trace in Hq. destruct Hq as [_ Hq].
    unfold back_up_inv. cbn. rewrite dispatches_app, Hq, app_nil_r.
    exact Hinv.
  - cbn [System.step].
    pose proof (cleanup_keeps App.xbox_controller ev (fun _ _ => eq_refl)
                  (System.app s)) as Hk.
    pose proof (cleanup_calls ev (System.app s)) as Hq.
    destruct (App.cleanup ev (System.app s)) as [[a' tr] res].
    cbn in Hk, Hq. apply quiet_trace in Hq. destruct Hq as [_ Hq].
    unfold back_up_inv. cbn. rewrite dispatches_app, Hq, app_nil_r, Hk.
    exact Hinv.
Qed.

(** C10: [read] returns twenty values with the Back button at index 14 and
    the Start button at index 15; a tick starts a takeoff or landing thread
    exactly when the value at index 14, the Back button, is non-zero; and a
    run without Back button events, whatever the Start button does, starts
    none. *)
Theorem toggle_is_back_button :
  (forall c : XboxController.t,
      List.length (XboxController.read c) = 20%nat /\
      Py.getitem (XboxController.read c) 14 = Some (c XboxController.Back) /\
      Py.getitem (XboxController.read c) 15 = Some (c XboxController.Start)) /\
  (forall ev a,
      App.dispatches (snd (fst (App.update_joystick ev a))) =
      if Py.truthy (App.xbox_controller a XboxController.Back) then
        [if drone_is_flying ev then DroneLand else DroneTakeoff]
      else []) /\
  (forall first actions,
      (forall e, In (System.Gamepad e) actions ->
                 XboxController.code e <> "BTN_SELECT"%string) ->
      App.dispatches (System.log (System.run (System.init first) actions)) = []).
Proof.
  split; [|split].
  - intros c. repeat split.
  - apply update_joystick_dispatches.
  - intros first actions Hok.
    apply (run_invariant back_up_inv (fun a => In a actions)).
    + intros s a Ha. apply back_up_inv_step. intros e ->. now apply Hok.
    + split; reflexivity.
    + auto.
Qed.

Lemma toggle_is_back_button_witness :
  App.dispatches
    (System.log (System.run (System.init 80)
                   [System.Gamepad (Examples.press "BTN_START");
                    System.Tick Examples.calm])) = [].
Proof.
  apply (proj2 (proj2 toggle_is_back_button) 80).
  intros e [H|[H|[]]]; [|discriminate H].
  injection H as <-. discriminate.
Defined.

(** C7: on the raw range [-2^15, 2^15], [_normalize] is monotonic, sends
    [2^15] to 100, [-2^15] to -100 and 0 to 0, and is the scaled value
    [r * 100 / 2^15] rounded toward zero. *)
Theorem normalize_monotone_toward_zero :
  (forall r1 r2, - 2 ^ 15 <= r1 -> r1 <= r2 -> r2 <= 2 ^ 15 ->
     exists n1 n2,
       XboxController._normalize r1 = Some n1 /\
       XboxController._normalize r2 = Some n2 /\ n1 <= n2) /\
  XboxController._normalize (2 ^ 15) = Some 100 /\
  XboxController._normalize (- 2 ^ 15) = Some (-100) /\
  XboxController._normalize 0 = Some 0 /\
  (forall r, - 2 ^ 15 <= r <= 2 ^ 15 ->
     exists n,
       XboxController._normalize r = Some n /\
       Z.abs n * 2 ^ 15 <= Z.abs r * 100 < (Z.abs n + 1) * 2 ^ 15 /\
       (0 <= r -> 0 <= n) /\ (r <= 0 -> n <= 0)).
Proof.
  change (2 ^ 15) with 32768. split; [|split; [|split; [|split]]].
  - intros r1 r2 H1 H12 H2.
    exists ((r1 * 100) ÷ 32768), ((r2 * 100) ÷ 32768).
    rewrite !_normalize_exact by lia. split; [reflexivity|split; [reflexivity|]].
    apply Z.quot_le_mono; lia.
  - now rewrite _normalize_exact by lia.
  - now rewrite _normalize_exact by lia.
  - now rewrite _normalize_exact by lia.
  - intros r Hr. exists ((r * 100) ÷ 32768).
    rewrite _normalize_exact by lia. split; [reflexivity|].
    Z.to_euclidean_division_equations; lia.
Qed.

Lemma normalize_monotone_toward_zero_witness :
  exists n1 n2,
    XboxController._normalize (-20000) = Some n1 /\
    XboxController._normalize 16384 = Some n2 /\ n1 <= n2.
Proof.
  apply (proj1 normalize_monotone_toward_zero (-20000) 16384); cbn; lia.
Defined.

(** C8 (the code differs): a trigger event at the full trigger magnitude
    [MAX_TRIG_VAL = 2^8] is normalized against [MAX_JOY_VAL], which gives 0,
    not 100, and the trigger attribute stays 0. *)
Theorem trigger_full_scale_normalizes_to_zero :
  Py.int_of_float XboxController.MAX_TRIG_VAL = Some 256 /\
  XboxController._normalize 256 = Some 0 /\
  option_map (fun c => c XboxController.LeftTrigger)
    (XboxController.handle_event XboxController.init (Examples.axis "ABS_Z" 256))
  = Some 0 /\
  option_map (fun c => c XboxController.RightTrigger)
    (XboxController.handle_event XboxController.init (Examples.axis "ABS_RZ" 256))
  = Some 0.
Proof. repeat split; vm_compute; reflexivity. Qed.

(** C2 (counterexample): when [send_rc_control] raises, the tick prints the
    exception and registers no timer, and no later tick runs. *)
Lemma failed_send_ends_dispatch_loop :
  let s := System.run (System.init 80) [System.Tick Examples.send_fails] in
  App.registered Root 50 UpdateJoystick (System.log s) = false /\
  System.joystick_timer s = false /\
  System.run s [System.Tick Examples.calm; System.Tick Examples.calm] = s.
Proof. repeat split. Qed.

Ltac in_cases :=
  repeat match goal with
         | H : In _ (_ :: _) |- _ => destruct H as [H|H]; [inversion H; subst|]
         | H : In _ [] |- _ => contradiction H
         end.

(** C2 (amended): a tick registers the next one, 50 ms later, exactly when
    every call it makes returns; when a call raises an [Exception], the tick
    prints it, returns normally and registers nothing. *)
Theorem update_joystick_reschedules_unless_raised ev a :
  List.length (App.rc_controls a) = 4%nat ->
  let tr := snd (fst (App.update_joystick ev a)) in
  App.registered Root 50 UpdateJoystick tr = all_returned tr /\
  (forall c e,
      In (c, Raised e) tr -> Py.is_Exception e = true ->
      App.registered Root 50 UpdateJoystick tr = false /\
      In (Print (JoystickUpdateException e), Returned) tr /\
      snd (App.update_joystick ev a) = inr tt).
Proof.
  intros Hrc. destruct (length4 _ Hrc) as (r0 & r1 & r2 & r3 & Hl).
  destruct a as [fl hh ww rc xc ind]; cbn in Hl; subst rc.
  cbv zeta. run_M.
  all: split; [reflexivity|].
  all: intros ? ? Hin He; in_cases; try discriminate He.
  all: repeat split; cbn; auto 10.
Qed.

Lemma update_joystick_reschedules_unless_raised_witness :
  App.registered Root 50 UpdateJoystick
    (snd (fst (App.update_joystick Examples.send_fails (App.init 80)))) =
  all_returned (snd (fst (App.update_joystick Examples.send_fails (App.init 80)))).
Proof.
  apply (update_joystick_reschedules_unless_raised Examples.send_fails (App.init 80)).
  reflexivity.
Defined.

(** C3 (counterexample): one press of the toggle button while grounded starts
    one takeoff thread, and the [flying] flag is still false afterwards. *)
Lemma toggle_press_leaves_flying_false :
  let s := System.run (System.init 80)
             [System.Gamepad (Examples.press "BTN_SELECT");
              System.Tick Examples.calm] in
  App.dispatches (System.log s) = [DroneTakeoff] /\
  App.flying (System.app s) = false.
Proof. split; reflexivity. Qed.

(** C3 (amended): a tick that reads the toggle button at a non-zero level
    starts exactly one thread, for takeoff when the drone's [is_flying] is
    false and for landing otherwise, then sleeps 150 ms; the [flying] flag of
    the application is left as it was. *)
Theorem toggle_level_starts_one_thread ev a :
  Py.truthy (App.xbox_controller a XboxController.Back) = true ->
  outcome_of ev (ThreadStart (if drone_is_flying ev then DroneLand
                              else DroneTakeoff)) = Returned ->
  exists rest,
    snd (fst (App.update_joystick ev a)) =
      (ThreadStart (if drone_is_flying ev then DroneLand else DroneTakeoff),
       Returned) :: (Sleep 150, Returned) :: rest /\
    App.dispatches rest = [] /\
    App.flying (fst (fst (App.update_joystick ev a))) = App.flying a.
Proof.
  any_rc a; run_M; intros Ht Ho; try discriminate;
    eexists; repeat split.
Qed.

Lemma toggle_level_starts_one_thread_witness :
  exists rest,
    snd (fst (App.update_joystick Examples.calm
                (App.set_xbox_controller
                   (XboxController.setattr XboxController.init XboxController.Back 1)
                   (App.init 80)))) =
      (ThreadStart DroneTakeoff, Returned) :: (Sleep 150, Returned) :: rest /\
    App.dispatches rest = [] /\
    App.flying (fst (fst (App.update_joystick Examples.calm
                (App.set_xbox_controller
                   (XboxController.setattr XboxController.init XboxController.Back 1)
                   (App.init 80))))) = false.
Proof.
  apply (toggle_level_starts_one_thread Examples.calm
           (App.set_xbox_controller
              (XboxController.setattr XboxController.init XboxController.Back 1)
              (App.init 80))); reflexivity.
Defined.

(** C4: a tick whose four stick values are zero still makes exactly one
    [send_rc_control] call, with (0, 0, 0, 0). *)
Theorem neutral_tick_sends_hover ev a :
  List.length (App.rc_controls a) = 4%nat ->
  (forall x, is_stick x = true -> App.xbox_controller a x = 0) ->
  (Py.truthy (App.xbox_controller a XboxController.Back) = true ->
   outcome_of ev (ThreadStart (if drone_is_flying ev then DroneLand
                               else DroneTakeoff)) = Returned) ->
  App.sent_commands (snd (fst (App.update_joystick ev a))) = [(0, 0, 0, 0)] /\
  In (SendRcControl 0 0 0 0) (calls (snd (fst (App.update_joystick ev a)))).
Proof.
  intros Hrc. destruct (length4 _ Hrc) as (r0 & r1 & r2 & r3 & Hl).
  destruct a as [fl hh ww rc xc ind]; cbn in Hl; subst rc.
  intros Hz. cbn in Hz. reduce_M.
  rewrite !(Hz XboxController.RightJoystickX eq_refl),
          !(Hz XboxController.RightJoystickY eq_refl),
          !(Hz XboxController.LeftJoystickX eq_refl),
          !(Hz XboxController.LeftJoystickY eq_refl).
  run_M; intros Ho; try discriminate; try (specialize (Ho eq_refl); discriminate);
    split; try reflexivity; cbn; auto 10.
Qed.

Lemma neutral_tick_sends_hover_witness :
  App.sent_commands (snd (fst (App.update_joystick Examples.calm (App.init 80))))
    = [(0, 0, 0, 0)] /\
  In (SendRcControl 0 0 0 0)
     (calls (snd (fst (App.update_joystick Examples.calm (App.init 80))))).
Proof.
  apply (neutral_tick_sends_hover Examples.calm (App.init 80)).
  - reflexivity.
  - intros x _. reflexivity.
  - intros H. discriminate H.
Defined.

Lemma last_cons {A} (l : list A) :
  forall x d, last (x :: l) d = last l x.
Proof.
  induction l as [|y l IH]; intros x d; [reflexivity|].
  change (last (x :: y :: l) d) with (last (y :: l) d).
  now rewrite !IH.
Qed.

Lemma update_indicators_loop_failure (oks : list Z) (e : Py.exn)
      (rest : list (Py.exn + Z)) :
  forall self,
    Indicators.update self = true ->
    Indicators.update_indicators_loop (map inr oks ++ inl e :: rest) self =
    (Indicators.set_battery (last oks (Indicators.battery self)) self,
     flat_map poll_calls oks
       ++ [(Print UpdatingIndicators, Returned); (GetBattery, Raised e)],
     inl e).
Proof.
  induction oks as [|b oks IH]; intros self Hup.
  - cbn [map app Indicators.update_indicators_loop flat_map last].
    unfold bind, Indicators.update_indicators_iteration,
      Indicators.update_indicators_test, bind, get, ret.
    rewrite Hup. cbn. destruct self; reflexivity.
  - cbn [map app Indicators.update_indicators_loop flat_map].
    rewrite last_cons.
    unfold bind at 1.
    assert (Hit : Indicators.update_indicators_iteration (inr b) self =
                  (Indicators.set_battery b self, poll_calls b, inr true)).
    { unfold Indicators.update_indicators_iteration,
        Indicators.update_indicators_test, bind, get, ret.
      rewrite Hup. reflexivity. }
    rewrite Hit, (IH (Indicators.set_battery b self) Hup).
    rewrite <- app_assoc. reflexivity.
Qed.

(** C5 (counterexample): with the answers 80, an exception, 50, the indicator
    thread ends with the exception at the second poll; the battery value stays
    80 and the third answer is never asked for. *)
Lemma failed_poll_ends_indicator_thread :
  let r := Indicators.update_indicators
             [inr 80; inl (Py.Exception "no response"); inr 50]
             (Indicators.init 720 480 90) in
  snd r = inl (Py.Exception "no response") /\
  Indicators.battery (fst (fst r)) = 80 /\
  List.length (filter (fun x => match fst x with GetBattery => true | _ => false end)
                 (snd (fst r))) = 2%nat.
Proof. repeat split. Qed.

(** C5 (amended): when a battery read raises after the successful reads
    [oks], the stored battery value is the last successful one (or the initial
    one), nothing is printed about the failure, the loop makes no further poll
    (the exception ends the thread), and the overlay is drawn from the stored
    value. *)
Theorem failed_poll_keeps_last_battery (self : Indicators.t) (oks : list Z)
        (e : Py.exn) (rest : list (Py.exn + Z)) :
  let stale := last oks (Indicators.battery self) in
  let r := Indicators.update_indicators (map inr oks ++ inl e :: rest) self in
  snd r = inl e /\
  fst (fst r) = Indicators.set_battery stale (Indicators.set_update true self) /\
  snd (fst r) =
    flat_map poll_calls oks
      ++ [(Print UpdatingIndicators, Returned); (GetBattery, Raised e)] /\
  Indicators.draw_battery_indicator (fst (fst r)) =
    Indicators.draw_battery_indicator (Indicators.set_battery stale self).
Proof.
  assert (Heq : Indicators.update_indicators (map inr oks ++ inl e :: rest) self =
                (Indicators.set_battery (last oks (Indicators.battery self))
                   (Indicators.set_update true self),
                 flat_map poll_calls oks
                   ++ [(Print UpdatingIndicators, Returned); (GetBattery, Raised e)],
                 inl e)).
  { unfold Indicators.update_indicators, Indicators.update_indicators_start.
    unfold bind at 1, modify.
    now rewrite (update_indicators_loop_failure oks e rest
                   (Indicators.set_update true self) eq_refl). }
  cbv zeta. rewrite Heq. cbn [fst snd]. repeat split.
Qed.

Lemma bars_expected self color n :
  (n <= 10)%nat -> Indicators.bars self color n = expected_bars self color n.
Proof.
  intros Hn. do 11 (destruct n as [|n]; [reflexivity|]). lia.
Qed.

Lemma NoDup_map_injective {A B} (f : A -> B) (l : list A) :
  (forall x y, f x = f y -> x = y) -> NoDup l -> NoDup (map f l).
Proof.
  intros Hf. induction 1 as [|x l Hx _ IH]; cbn; constructor; trivial.
  intros Hin. apply in_map_iff in Hin. destruct Hin as (y & Hy & Hin).
  apply Hf in Hy. now subst.
Qed.

Lemma expected_bars_NoDup self color n : NoDup (expected_bars self color n).
Proof.
  unfold expected_bars. apply NoDup_map_injective; [|apply seq_NoDup].
  intros i j H.
  apply (f_equal (fun c => match c with
                           | Cv2Line (x, _) _ _ _ => x
                           | _ => 0
                           end)) in H.
  cbv beta iota in H. lia.
Qed.

Lemma draw_battery_indicator_in_range (self : Indicators.t) (p : Z) :
  Indicators.battery self = p ->
  0 <= p <= 100 ->
  Indicators.draw_battery_indicator self =
  [ Cv2Rectangle (Indicators.w self / 128 + 3, Indicators.h self / 32 + 29)
                 (Indicators.w self / 128 + 52, Indicators.h self / 32 + 51)
                 (255, 255, 255) (-1);
    Cv2Rectangle (Indicators.w self / 128 + 52, Indicators.h self / 32 + 35)
                 (Indicators.w self / 128 + 55, Indicators.h self / 32 + 45)
                 (255, 255, 255) (-1) ]
    ++ expected_bars self (band p) (Z.to_nat (Z.max 1 (p / 10)))
    ++ [ Cv2PutText p (Indicators.w self / 128 + 60, Indicators.h self / 32 + 45)
                    (43, 157, 255) 1 ].
Proof.
  intros Hb Hp.
  rewrite <- bars_expected
    by (apply Nat2Z.inj_le; rewrite Z2Nat.id by lia;
        Z.to_euclidean_division_equations; lia).
  unfold Indicators.draw_battery_indicator. rewrite Hb. unfold band.
  repeat match goal with
         | |- context [if ?c then _ else _] => destruct c eqn:?
         end;
    rewrite ?Z.geb_leb, ?andb_true_iff, ?andb_false_iff in *;
    rewrite ?Z.leb_le, ?Z.leb_gt, ?Z.ltb_lt, ?Z.ltb_ge, ?Z.eqb_eq, ?Z.eqb_neq in *;
    try lia;
    match goal with
    | |- _ ++ Indicators.bars _ _ ?k ++ _ = _ =>
        assert (Z.max 1 (p / 10) = Z.of_nat k)
          by (cbn; Z.to_euclidean_division_equations; lia)
    end;
    match goal with H : Z.max _ _ = _ |- _ => rewrite H end;
    rewrite Nat2Z.id; reflexivity.
Qed.

Lemma drawn_bars_expected self color n :
  drawn_bars (expected_bars self color n) = expected_bars self color n.
Proof.
  unfold expected_bars, drawn_bars.
  induction (seq 1 n) as [|i l IH]; [reflexivity|].
  cbn [map filter]. now rewrite IH.
Qed.

Lemma segment_colors_expected self color n :
  Indicators.segment_colors (expected_bars self color n) = repeat color n.
Proof.
  unfold expected_bars, Indicators.segment_colors. generalize 1%nat.
  induction n as [|k IH]; intros start; [reflexivity|].
  cbn [seq map flat_map repeat app]. now rewrite IH.
Qed.

(** C6: for a battery percentage [p] in [0, 100] the bars drawn are
    [max 1 (p / 10)] in number, [p / 10] except below 10 where one bar is
    drawn; they are distinct vertical lines, the [i]-th at [w // 128 + 5 * i],
    all of the colour of the band of [p] (red below 40, yellow from 40 to 69,
    green from 70); they depend on nothing but [p] and the frame size. *)
Theorem battery_segments (self : Indicators.t) (p : Z) :
  Indicators.battery self = p ->
  0 <= p <= 100 ->
  let n := Z.to_nat (Z.max 1 (p / 10)) in
  let segments := Indicators.segment_colors (Indicators.draw_battery_indicator self) in
  drawn_bars (Indicators.draw_battery_indicator self) =
    expected_bars self (band p) n /\
  NoDup (drawn_bars (Indicators.draw_battery_indicator self)) /\
  segments = repeat (band p) n /\
  (p = 100 -> segments = repeat Indicators.green 10) /\
  (p = 75 -> segments = repeat Indicators.green 7) /\
  (p = 55 -> segments = repeat Indicators.yellow 5) /\
  (p = 25 -> segments = repeat Indicators.red 2) /\
  (p = 5 -> segments = repeat Indicators.red 1).
Proof.
  intros Hb Hp. cbv zeta.
  assert (Hbars : drawn_bars (Indicators.draw_battery_indicator self) =
                  expected_bars self (band p) (Z.to_nat (Z.max 1 (p / 10)))).
  { rewrite (draw_battery_indicator_in_range self p Hb Hp).
    unfold drawn_bars at 1. rewrite !filter_app. cbn [filter app].
    rewrite app_nil_r. apply drawn_bars_expected. }
  assert (Hgen : Indicators.segment_colors (Indicators.draw_battery_indicator self)
                 = repeat (band p) (Z.to_nat (Z.max 1 (p / 10)))).
  { rewrite (draw_battery_indicator_in_range self p Hb Hp).
    unfold Indicators.segment_colors. rewrite !flat_map_app. cbn [flat_map app].
    rewrite app_nil_r. apply segment_colors_expected. }
  split; [exact Hbars|]. split; [rewrite Hbars; apply expected_bars_NoDup|].
  split; [exact Hgen|].
  repeat split; intros ->; rewrite Hgen; reflexivity.
Qed.

Lemma battery_segments_witness :
  drawn_bars (Indicators.draw_battery_indicator (Indicators.init 720 480 55)) =
  expected_bars (Indicators.init 720 480 55) (band 55)
    (Z.to_nat (Z.max 1 (55 / 10))).
Proof.
  assert (H : 0 <= 55 <= 100) by lia.
  exact (proj1 (battery_segments (Indicators.init 720 480 55) 55 eq_refl H)).
Defined.



Lemma try_except_print_no_escape {S} (m : M S unit) (msg : Py.exn -> message) s :
  escapes (snd (try_except m (fun e => emit (Print (msg e))) s)) = false.
Proof.
  unfold try_except. destruct (m s) as [[s1 t1] [e|[]]]; [|reflexivity].
  destruct e; reflexivity.
Qed.



(** ** Further properties of the controller *)

Lemma stored_value_cases (r : Z) :
  - 2 ^ 15 <= r <= 2 ^ 15 ->
  exists n,
    XboxController._normalize r = Some n /\
    (Z.abs r <= 5242 -> XboxController._filter_noise n = 0) /\
    (5242 < Z.abs r ->
     XboxController._filter_noise n = n /\ 16 <= Z.abs n <= 100).
Proof.
  change (2 ^ 15) with 32768. intros Hr.
  exists ((r * 100) ÷ 32768). split; [now apply _normalize_exact|].
  unfold XboxController._filter_noise.
  destruct (Z.leb_spec (Z.abs ((r * 100) ÷ 32768)) 15) as [H|H];
    split; intros Hz; try split; trivial;
    revert H; Z.to_euclidean_division_equations; lia.
Qed.


(** X1: on the joystick range the stored axis value is zero exactly for raw
    readings of magnitude at most 5242 (the dead zone in raw units); beyond
    it the value is the normalized reading, of magnitude 16 to 100. *)
Theorem dead_zone_in_raw_units (r : Z) :
  - 2 ^ 15 <= r <= 2 ^ 15 ->
  exists n,
    XboxController._normalize r = Some n /\
    (Z.abs r <= 5242 -> XboxController._filter_noise n = 0) /\
    (5242 < Z.abs r ->
     XboxController._filter_noise n = n /\ 16 <= Z.abs n <= 100).
Proof. exact (stored_value_cases r). Qed.

Lemma dead_zone_in_raw_units_witness :
  exists n,
    XboxController._normalize 5243 = Some n /\
    (Z.abs 5243 <= 5242 -> XboxController._filter_noise n = 0) /\
    (5242 < Z.abs 5243 ->
     XboxController._filter_noise n = n /\ 16 <= Z.abs n <= 100).
Proof.
  apply (dead_zone_in_raw_units 5243). cbn. lia.
Defined.

Lemma _filter_noise_opp (n : Z) :
  XboxController._filter_noise (- n) = - XboxController._filter_noise n.
Proof.
  unfold XboxController._filter_noise. rewrite Z.abs_opp.
  destruct (Z.abs n <=? 15); reflexivity.
Qed.

(** X2: the stored axis value is an odd function of the raw reading: the
    opposite reading stores the opposite value. *)
Theorem stored_axis_value_is_odd (r : Z) :
  - 2 ^ 15 <= r <= 2 ^ 15 ->
  option_map XboxController._filter_noise (XboxController._normalize (- r)) =
  option_map (fun n => - XboxController._filter_noise n)
             (XboxController._normalize r).
Proof.
  change (2 ^ 15) with 32768. intros Hr.
  rewrite !_normalize_exact by lia. cbn [option_map]. f_equal.
  rewrite <- _filter_noise_opp. f_equal.
  rewrite Z.mul_opp_l. apply Z.quot_opp_l. lia.
Qed.

Lemma stored_axis_value_is_odd_witness :
  option_map XboxController._filter_noise (XboxController._normalize (- 16384)) =
  option_map (fun n => - XboxController._filter_noise n)
             (XboxController._normalize 16384).
Proof.
  apply (stored_axis_value_is_odd 16384). cbn. lia.
Defined.

(** X3: a trigger event with a raw reading of magnitude at most 5242, which
    covers the 8-bit and 10-bit trigger ranges, always stores 0 in the trigger
    attribute. *)
Theorem trigger_events_store_zero (c : XboxController.t) (raw : Z) :
  Z.abs raw <= 5242 ->
  XboxController.handle_event c (Examples.axis "ABS_Z" raw) =
    Some (XboxController.setattr c XboxController.LeftTrigger 0) /\
  XboxController.handle_event c (Examples.axis "ABS_RZ" raw) =
    Some (XboxController.setattr c XboxController.RightTrigger 0).
Proof.
  intros Hraw.
  destruct (stored_value_cases raw) as (n & Hn & Hz & _).
  { change (2 ^ 15) with 32768. lia. }
  specialize (Hz Hraw).
  unfold XboxController.handle_event. cbn [String.eqb Ascii.eqb Bool.eqb Examples.axis XboxController.code XboxController.state].
  unfold XboxController.store_axis. rewrite Hn, Hz. split; reflexivity.
Qed.

Lemma trigger_events_store_zero_witness :
  XboxController.handle_event XboxController.init (Examples.axis "ABS_Z" 1023) =
    Some (XboxController.setattr XboxController.init XboxController.LeftTrigger 0) /\
  XboxController.handle_event XboxController.init (Examples.axis "ABS_RZ" 1023) =
    Some (XboxController.setattr XboxController.init XboxController.RightTrigger 0).
Proof.
  apply (trigger_events_store_zero XboxController.init 1023). cbn. lia.
Defined.

(** X4: a button event stores its state unchanged in the entry of [read]
    that belongs to its code, and leaves the other nineteen entries as they
    were. *)
Theorem button_event_sets_its_entry (k : string) (i : nat) :
  In (k, i) button_index ->
  forall (c : XboxController.t) (v : Z),
  exists c',
    XboxController.handle_event c
      {| XboxController.code := k; XboxController.state := v |} = Some c' /\
    Py.setitem (XboxController.read c) i v = Some (XboxController.read c').
Proof.
  intros Hin c v. unfold button_index in Hin.
  repeat (destruct Hin as [Hin|Hin]; [injection Hin as <- <-; eexists; split; reflexivity|]).
  contradiction.
Qed.

Lemma button_event_sets_its_entry_witness :
  exists c',
    XboxController.handle_event XboxController.init
      {| XboxController.code := "BTN_SELECT"; XboxController.state := 1 |} = Some c' /\
    Py.setitem (XboxController.read XboxController.init) 14 1 =
      Some (XboxController.read c').
Proof.
  apply (button_event_sets_its_entry "BTN_SELECT" 14).
  unfold button_index. cbn. tauto.
Defined.

(** X5: an event whose code is none of the twenty known codes changes
    nothing. *)
Theorem unknown_event_changes_nothing (c : XboxController.t)
        (e : XboxController.event) :
  known_code (XboxController.code e) = false ->
  XboxController.handle_event c e = Some c.
Proof.
  unfold known_code. cbn [axis_attr button_index map fst app existsb].
  rewrite !orb_false_iff. intros H.
  unfold XboxController.handle_event.
  repeat match goal with
         | H : _ /\ _ |- _ => destruct H as [? H]
         end.
  repeat match goal with
         | H : (_ =? _)%string = false |- _ => rewrite H; clear H
         end.
  reflexivity.
Qed.

Lemma unknown_event_changes_nothing_witness :
  XboxController.handle_event XboxController.init (Examples.press "BTN_MODE") =
  Some XboxController.init.
Proof.
  apply (unknown_event_changes_nothing XboxController.init (Examples.press "BTN_MODE")).
  reflexivity.
Defined.

Lemma handle_event_axis (c : XboxController.t) (e : XboxController.event)
      (k : string) (a : XboxController.attr) :
  In (k, a) axis_attr ->
  axis_in_range e ->
  exists c',
    XboxController.handle_event c e = Some c' /\
    if (XboxController.code e =? k)%string then
      Some (c' a) = option_map XboxController._filter_noise
                      (XboxController._normalize (XboxController.state e))
    else c' a = c a.
Proof.
  intros Hin Hr. unfold axis_in_range, XboxController.is_axis in Hr.
  unfold axis_attr in Hin.
  repeat (destruct Hin as [Hin|Hin]; [injection Hin as <- <-|]);
    try contradiction.
  all: unfold XboxController.handle_event, XboxController.store_axis.
  all: repeat match goal with
         | |- context [if (?x =? ?s)%string then _ else _] =>
             destruct (x =? s)%string eqn:?
         end.
  all: try (destruct (_normalize_bounded _ (Hr eq_refl)) as (n & Hn & _);
            rewrite Hn).
  all: first
         [ eexists; (split; [reflexivity|]); reflexivity
         | exfalso;
           repeat match goal with
                  | H : (_ =? _)%string = true |- _ => apply String.eqb_eq in H
                  end;
           congruence ].
Qed.

(** X6: over events whose axis readings lie in the joystick range the
    monitor loop never raises, and each axis attribute ends as
    [_filter_noise (_normalize raw)] for the raw reading of the last event of
    its code, or as it was when there is none. *)
Theorem monitor_keeps_last_axis_reading (evs : list XboxController.event) :
  forall c : XboxController.t,
    (forall e, In e evs -> axis_in_range e) ->
    snd (XboxController._monitor_controller c evs) = true /\
    forall k a, In (k, a) axis_attr ->
      match last_state k evs with
      | Some raw =>
          Some (fst (XboxController._monitor_controller c evs) a) =
          option_map XboxController._filter_noise (XboxController._normalize raw)
      | None => fst (XboxController._monitor_controller c evs) a = c a
      end.
Proof.
  induction evs as [|e rest IH]; intros c Hr.
  - split; [reflexivity|]. intros k a _. reflexivity.
  - cbn [XboxController._monitor_controller last_state].
    assert (He : axis_in_range e) by (apply Hr; now left).
    assert (Hrest : forall x, In x rest -> axis_in_range x)
      by (intros x Hx; apply Hr; now right).
    destruct (handle_event_axis c e "ABS_Y" _ (or_introl eq_refl) He)
      as (c1 & Hc1 & _).
    rewrite Hc1. destruct (IH c1 Hrest) as [Halive Hlast].
    split; [exact Halive|]. intros k a Hin.
    specialize (Hlast k a Hin).
    destruct (last_state k rest) as [raw|]; [exact Hlast|].
    destruct (handle_event_axis c e k a Hin He) as (c2 & Hc2 & Hk).
    assert (c2 = c1) by congruence. subst c2.
    destruct (XboxController.code e =? k)%string; congruence.
Qed.

Lemma monitor_keeps_last_axis_reading_witness :
  snd (XboxController._monitor_controller XboxController.init
         [Examples.axis "ABS_RX" 100; Examples.axis "ABS_RX" 16384]) = true /\
  forall k a, In (k, a) axis_attr ->
    match last_state k [Examples.axis "ABS_RX" 100; Examples.axis "ABS_RX" 16384] with
    | Some raw =>
        Some (fst (XboxController._monitor_controller XboxController.init
                     [Examples.axis "ABS_RX" 100; Examples.axis "ABS_RX" 16384]) a) =
        option_map XboxController._filter_noise (XboxController._normalize raw)
    | None =>
        fst (XboxController._monitor_controller XboxController.init
               [Examples.axis "ABS_RX" 100; Examples.axis "ABS_RX" 16384]) a =
        XboxController.init a
    end.
Proof.
  apply (monitor_keeps_last_axis_reading
           [Examples.axis "ABS_RX" 100; Examples.axis "ABS_RX" 16384]
           XboxController.init).
  intros e [H|[H|[]]]; subst e; intros _; cbn; lia.
Defined.

(** ** Further properties of the dispatch loop *)

Lemma update_joystick_sends ev a :
  List.length (App.rc_controls a) = 4%nat ->
  (Py.truthy (App.xbox_controller a XboxController.Back) = true ->
   outcome_of ev (ThreadStart (if drone_is_flying ev then DroneLand
                               else DroneTakeoff)) = Returned) ->
  App.sent_commands (snd (fst (App.update_joystick ev a))) =
    [(App.xbox_controller a XboxController.RightJoystickX,
      App.xbox_controller a XboxController.RightJoystickY,
      App.xbox_controller a XboxController.LeftJoystickY,
      App.xbox_controller a XboxController.LeftJoystickX)] /\
  App.rc_controls (fst (fst (App.update_joystick ev a))) =
    [App.xbox_controller a XboxController.RightJoystickX;
     App.xbox_controller a XboxController.RightJoystickY;
     App.xbox_controller a XboxController.LeftJoystickY;
     App.xbox_controller a XboxController.LeftJoystickX].
Proof.
  intros Hrc. destruct (length4 _ Hrc) as (r0 & r1 & r2 & r3 & Hl).
  destruct a as [fl hh ww rc xc ind]; cbn in Hl; subst rc.
  run_M; intros Ho; try discriminate; try (specialize (Ho eq_refl); discriminate);
    split; try reflexivity.
  all: match goal with
       | H : Py.list_eqb _ _ = true |- _ =>
           apply list_eqb_zero4 in H; destruct H as (-> & -> & -> & ->)
       end; reflexivity.
Qed.


(** X7: a tick that reaches the send makes exactly one [send_rc_control]
    call, with (RightJoystickX, RightJoystickY, LeftJoystickY, LeftJoystickX),
    and leaves these four values in [rc_controls]. *)
Theorem tick_sends_stick_values ev a :
  List.length (App.rc_controls a) = 4%nat ->
  (Py.truthy (App.xbox_controller a XboxController.Back) = true ->
   outcome_of ev (ThreadStart (if drone_is_flying ev then DroneLand
                               else DroneTakeoff)) = Returned) ->
  App.sent_commands (snd (fst (App.update_joystick ev a))) =
    [(App.xbox_controller a XboxController.RightJoystickX,
      App.xbox_controller a XboxController.RightJoystickY,
      App.xbox_controller a XboxController.LeftJoystickY,
      App.xbox_controller a XboxController.LeftJoystickX)] /\
  App.rc_controls (fst (fst (App.update_joystick ev a))) =
    [App.xbox_controller a XboxController.RightJoystickX;
     App.xbox_controller a XboxController.RightJoystickY;
     App.xbox_controller a XboxController.LeftJoystickY;
     App.xbox_controller a XboxController.LeftJoystickX].
Proof. exact (update_joystick_sends ev a). Qed.

Lemma tick_sends_stick_values_witness :
  App.sent_commands
    (snd (fst (App.update_joystick Examples.calm
                 (App.set_xbox_controller
                    (XboxController.setattr XboxController.init
                       XboxController.RightJoystickX 50) (App.init 80))))) =
    [(50, 0, 0, 0)] /\
  App.rc_controls
    (fst (fst (App.update_joystick Examples.calm
                 (App.set_xbox_controller
                    (XboxController.setattr XboxController.init
                       XboxController.RightJoystickX 50) (App.init 80))))) =
    [50; 0; 0; 0].
Proof.
  apply (tick_sends_stick_values Examples.calm
           (App.set_xbox_controller
              (XboxController.setattr XboxController.init
                 XboxController.RightJoystickX 50) (App.init 80))).
  - reflexivity.
  - intros H. discriminate H.
Defined.

Lemma step_without_timer s a :
  System.joystick_timer s = false ->
  System.joystick_timer (System.step s a) = false /\
  App.sent_commands (System.log (System.step s a)) =
    App.sent_commands (System.log s) /\
  App.dispatches (System.log (System.step s a)) =
    App.dispatches (System.log s).
Proof.
  intros Ht. destruct a as [e|r|ev|ev|ev].
  - cbn [System.step]. destruct (System.monitor_alive s); [|now repeat split].
    destruct (XboxController.handle_event _ e); now repeat split.
  - destruct (step_poll_spec s r) as (i & tr & _ & Htr & Hs & Hd).
    rewrite Htr, sent_commands_app, dispatches_app, Hs, Hd, !app_nil_r.
    repeat split. cbn [System.step].
    destruct (System.indicator_thread s); cbn;
      repeat match goal with
             | |- context [let (_, _) := ?x in _] => destruct x
             | |- context [match ?x with (_, _) => _ end] => destruct x
             end; exact Ht.
  - cbn [System.step]. rewrite Ht. now repeat split.
  - cbn [System.step]. destruct (System.video_timer s); [|now repeat split].
    pose proof (video_stream_calls ev (System.app s)) as Hq.
    destruct (App.video_stream ev (System.app s)) as [[a' tr] res].
    cbn in Hq. apply quiet_trace in Hq. destruct Hq as [Hs Hd]. cbn.
    rewrite sent_commands_app, dispatches_app, Hs, Hd, !app_nil_r.
    now repeat split.
  - cbn [System.step].
    pose proof (cleanup_calls ev (System.app s)) as Hq.
    destruct (App.cleanup ev (System.app s)) as [[a' tr] res].
    cbn in Hq. apply quiet_trace in Hq. destruct Hq as [Hs Hd]. cbn.
    rewrite sent_commands_app, dispatches_app, Hs, Hd, !app_nil_r.
    now repeat split.
Qed.

(** X8: once no tick is scheduled, no later step of the program schedules
    one, sends a velocity command or starts a takeoff or landing thread. *)
Theorem dispatch_loop_never_restarts (s : System.t) (actions : list System.action) :
  System.joystick_timer s = false ->
  System.joystick_timer (System.run s actions) = false /\
  App.sent_commands (System.log (System.run s actions)) =
    App.sent_commands (System.log s) /\
  App.dispatches (System.log (System.run s actions)) =
    App.dispatches (System.log s).
Proof.
  intros Ht.
  apply (run_invariant
           (fun s' => System.joystick_timer s' = false /\
                      App.sent_commands (System.log s') =
                        App.sent_commands (System.log s) /\
                      App.dispatches (System.log s') =
                        App.dispatches (System.log s))
           (fun _ => True)); auto.
  intros s' a _ (H1 & H2 & H3).
  destruct (step_without_timer s' a H1) as (K1 & K2 & K3).
  repeat split; congruence.
Qed.

Lemma dispatch_loop_never_restarts_witness :
  App.sent_commands
    (System.log
       (System.run (System.run (System.init 80) [System.Tick Examples.send_fails])
          [System.Gamepad (Examples.axis "ABS_RX" 16384);
           System.Tick Examples.calm])) =
  App.sent_commands
    (System.log (System.run (System.init 80) [System.Tick Examples.send_fails])).
Proof.
  apply (dispatch_loop_never_restarts
           (System.run (System.init 80) [System.Tick Examples.send_fails])).
  reflexivity.
Defined.

(** X9: in every run the [flying] flag stays false, the frame size stays
    720 by 480 and [rc_controls] keeps its four entries. *)
Theorem settings_never_change (first : Z) (actions : list System.action) :
  let a := System.app (System.run (System.init first) actions) in
  App.flying a = false /\ App.h a = 480 /\ App.w a = 720 /\
  List.length (App.rc_controls a) = 4%nat.
Proof.
  cbv zeta.
  apply (run_invariant
           (fun s => App.flying (System.app s) = false /\
                     App.h (System.app s) = 480 /\
                     App.w (System.app s) = 720 /\
                     List.length (App.rc_controls (System.app s)) = 4%nat)
           (fun _ => True)); [|now repeat split|auto].
  intros s a _ Hinv. destruct a as [e|r|ev|ev|ev].
  - cbn [System.step]. destruct (System.monitor_alive s); [|exact Hinv].
    destruct (XboxController.handle_event _ e); exact Hinv.
  - destruct (step_poll_spec s r) as (i & tr & Happ & _).
    rewrite <- Happ. exact Hinv.
  - cbn [System.step]. destruct (System.joystick_timer s); [|exact Hinv].
    pose proof (update_joystick_keeps_length ev (System.app s)) as K1.
    pose proof (update_joystick_keeps App.flying ev (fun _ _ => eq_refl)
                  (System.app s)) as K2.
    pose proof (update_joystick_keeps App.h ev (fun _ _ => eq_refl)
                  (System.app s)) as K3.
    pose proof (update_joystick_keeps App.w ev (fun _ _ => eq_refl)
                  (System.app s)) as K4.
    destruct (App.update_joystick ev (System.app s)) as [[a' tr] res].
    cbn in *. rewrite K1, K2, K3, K4. exact Hinv.
  - cbn [System.step]. destruct (System.video_timer s); [|exact Hinv].
    pose proof (video_stream_keeps ev (System.app s)) as K.
    destruct (App.video_stream ev (System.app s)) as [[a' tr] res].
    cbn in *. subst a'. exact Hinv.
  - cbn [System.step].
    pose proof (cleanup_keeps App.rc_controls ev (fun _ _ => eq_refl)
                  (System.app s)) as K1.
    pose proof (cleanup_keeps App.flying ev (fun _ _ => eq_refl)
                  (System.app s)) as K2.
    pose proof (cleanup_keeps App.h ev (fun _ _ => eq_refl)
                  (System.app s)) as K3.
    pose proof (cleanup_keeps App.w ev (fun _ _ => eq_refl)
                  (System.app s)) as K4.
    destruct (App.cleanup ev (System.app s)) as [[a' tr] res].
    cbn in *. rewrite K1, K2, K3, K4. exact Hinv.
Qed.

Lemma update_joystick_registers_when_all_return ev a :
  List.length (App.rc_controls a) = 4%nat ->
  (forall c, outcome_of ev c = Returned) ->
  App.registered Root 50 UpdateJoystick (snd (fst (App.update_joystick ev a)))
  = true.
Proof.
  intros Hrc Hret. destruct (length4 _ Hrc) as (r0 & r1 & r2 & r3 & Hl).
  destruct a as [fl hh ww rc xc ind]; cbn in Hl; subst rc.
  run_M; try reflexivity.
  all: match goal with
       | H : outcome_of _ _ = Raised _ |- _ => rewrite Hret in H; discriminate H
       end.
Qed.

(** X10: the toggle is read as a level: with the button held, two ticks in
    a row each start a thread, chosen by the drone's [is_flying] at that
    tick. *)
Theorem held_toggle_dispatches_every_tick (s : System.t) (ev1 ev2 : env) :
  System.joystick_timer s = true ->
  List.length (App.rc_controls (System.app s)) = 4%nat ->
  Py.truthy (App.xbox_controller (System.app s) XboxController.Back) = true ->
  (forall c, outcome_of ev1 c = Returned) ->
  App.dispatches (System.log (System.run s [System.Tick ev1; System.Tick ev2])) =
  App.dispatches (System.log s)
    ++ [ if drone_is_flying ev1 then DroneLand else DroneTakeoff;
         if drone_is_flying ev2 then DroneLand else DroneTakeoff ].
Proof.
  intros Ht Hrc Hb Hret.
  cbn [System.run fold_left System.step]. rewrite Ht.
  pose proof (update_joystick_registers_when_all_return ev1 _ Hrc Hret) as Hreg.
  pose proof (update_joystick_dispatches ev1 (System.app s)) as Hd1.
  pose proof (update_joystick_keeps App.xbox_controller ev1
                (fun _ _ => eq_refl) (System.app s)) as Hk.
  rewrite Hb in Hd1.
  destruct (App.update_joystick ev1 (System.app s)) as [[a1 tr1] res1].
  cbn [fst snd] in Hreg, Hd1, Hk.
  cbn [System.joystick_timer System.app System.log]. rewrite Hreg.
  pose proof (update_joystick_dispatches ev2 a1) as Hd2.
  rewrite Hk, Hb in Hd2.
  destruct (App.update_joystick ev2 a1) as [[a2 tr2] res2].
  cbn [fst snd] in Hd2. cbn [System.log].
  rewrite !dispatches_app, Hd1, Hd2, <- app_assoc. reflexivity.
Qed.

Lemma held_toggle_dispatches_every_tick_witness :
  App.dispatches
    (System.log
       (System.run
          (System.run (System.init 80)
             [System.Gamepad (Examples.press "BTN_SELECT")])
          [System.Tick Examples.calm; System.Tick Examples.calm])) =
  App.dispatches
    (System.log (System.run (System.init 80)
                   [System.Gamepad (Examples.press "BTN_SELECT")]))
    ++ [DroneTakeoff; DroneTakeoff].
Proof.
  apply (held_toggle_dispatches_every_tick
           (System.run (System.init 80)
              [System.Gamepad (Examples.press "BTN_SELECT")])
           Examples.calm Examples.calm); try reflexivity.
Defined.

(** ** Further properties of the indicators and of shutdown *)

Lemma update_indicators_loop_success (oks : list Z) :
  forall self,
    Indicators.update self = true ->
    Indicators.update_indicators_loop (map inr oks) self =
    (Indicators.set_battery (last oks (Indicators.battery self)) self,
     flat_map poll_calls oks, inr Indicators.StillPolling).
Proof.
  induction oks as [|b oks IH]; intros self Hup.
  - cbn. destruct self; reflexivity.
  - cbn [map Indicators.update_indicators_loop flat_map].
    rewrite last_cons. unfold bind at 1.
    assert (Hit : Indicators.update_indicators_iteration (inr b) self =
                  (Indicators.set_battery b self, poll_calls b, inr true)).
    { unfold Indicators.update_indicators_iteration,
        Indicators.update_indicators_test, bind, get, ret.
      rewrite Hup. reflexivity. }
    rewrite Hit, (IH (Indicators.set_battery b self) Hup). reflexivity.
Qed.

(** X11: when every battery read succeeds, the stored value is the last one
    read, each pass prints, reads, prints the value and sleeps one second, and
    the loop goes on. *)
Theorem successful_polls_store_last_reading (self : Indicators.t) (oks : list Z) :
  Indicators.update_indicators (map inr oks) self =
  (Indicators.set_battery (last oks (Indicators.battery self))
     (Indicators.set_update true self),
   flat_map poll_calls oks, inr Indicators.StillPolling).
Proof.
  unfold Indicators.update_indicators, Indicators.update_indicators_start.
  unfold bind at 1, modify.
  now rewrite (update_indicators_loop_success oks
                 (Indicators.set_update true self) eq_refl).
Qed.

Lemma cleanup_shape ev a :
  exists tr r,
    App.cleanup ev a =
    (App.set_indicators (Indicators.set_update false (App.indicators a)) a,
     (Print CleaningUpResources, Returned) :: tr, r) /\
    escapes r = false.
Proof.
  unfold App.cleanup. run_M; eexists; eexists; split; reflexivity.
Qed.

(** X12: whatever raises, [cleanup] first prints its message and clears the
    indicators' [update] flag, and lets no [Exception] out. *)
Theorem cleanup_always_stops_indicators ev a :
  Indicators.update (App.indicators (fst (fst (App.cleanup ev a)))) = false /\
  In (Print CleaningUpResources, Returned) (snd (fst (App.cleanup ev a))) /\
  escapes (snd (App.cleanup ev a)) = false.
Proof.
  destruct (cleanup_shape ev a) as (tr & r & -> & Hr).
  repeat split; trivial. now left.
Qed.

(** X13: when [drone.end()] and [root.quit()] return, [cleanup] calls
    [exit()], and the [SystemExit] it raises is not caught. *)
Theorem cleanup_exits_when_calls_return ev a :
  outcome_of ev DroneEnd = Returned ->
  outcome_of ev RootQuit = Returned ->
  App.cleanup ev a =
  (App.set_indicators (Indicators.set_update false (App.indicators a)) a,
   [ (Print CleaningUpResources, Returned);
     (DroneEnd, Returned);
     (RootQuit, Returned);
     (Exit, Raised Py.SystemExit) ],
   inl Py.SystemExit).
Proof.
  intros H1 H2. unfold App.cleanup. reduce_M. rewrite H1, H2. reflexivity.
Qed.

Lemma cleanup_exits_when_calls_return_witness :
  App.cleanup Examples.calm (App.init 80) =
  (App.set_indicators
     (Indicators.set_update false (App.indicators (App.init 80))) (App.init 80),
   [ (Print CleaningUpResources, Returned);
     (DroneEnd, Returned);
     (RootQuit, Returned);
     (Exit, Raised Py.SystemExit) ],
   inl Py.SystemExit).
Proof.
  apply (cleanup_exits_when_calls_return Examples.calm (App.init 80)); reflexivity.
Defined.

Lemma battery_reads_app t1 t2 :
  battery_reads (t1 ++ t2) = (battery_reads t1 + battery_reads t2)%nat.
Proof. unfold battery_reads. now rewrite filter_app, length_app. Qed.

Lemma battery_reads_none (tr : trace) :
  Forall (fun x => ~ is_battery_read (fst x)) tr -> battery_reads tr = 0%nat.
Proof.
  induction 1 as [|[c o] tr Hc _ IH]; [reflexivity|].
  unfold battery_reads in *. cbn [filter fst].
  destruct c; cbn in Hc; trivial. tauto.
Qed.

Lemma update_joystick_no_battery_read ev :
  calls_only (fun c => ~ is_battery_read c) (App.update_joystick ev).
Proof.
  unfold App.update_joystick, App.takeoff_land, App.index, App.set_rc_control.
  walk.
Qed.

Lemma draw_battery_indicator_no_battery_read (i : Indicators.t) :
  Forall (fun c => ~ is_battery_read c) (Indicators.draw_battery_indicator i).
Proof.
  unfold Indicators.draw_battery_indicator.
  repeat match goal with |- context [if ?b then _ else _] => destruct b end;
    cbn; repeat constructor; auto.
Qed.

Lemma video_stream_no_battery_read ev :
  calls_only (fun c => ~ is_battery_read c) (App.video_stream ev).
Proof.
  unfold App.video_stream.
  walk_with ltac:(first [single_call
                        | auto using draw_battery_indicator_no_battery_read
                            with monad_facts]).
Qed.

Lemma cleanup_no_battery_read ev :
  calls_only (fun c => ~ is_battery_read c) (App.cleanup ev).
Proof.
  unfold App.cleanup. walk.
  intros s. repeat constructor; cbn; tauto.
Qed.

Lemma body_reads_once r i :
  Indicators.update (fst (fst (Indicators.update_indicators_body r i))) =
    Indicators.update i /\
  battery_reads (snd (fst (Indicators.update_indicators_body r i))) = 1%nat.
Proof. destruct r as [e|b]; split; reflexivity. Qed.

Lemma stopping_step budget s a : stopping budget s -> stopping budget (System.step s a).
Proof.
  intros Hinv. pose proof Hinv as (Hup & Hst & Hb).
  destruct a as [e|r|ev|ev|ev]; cbn [System.step].
  - destruct (System.monitor_alive s); [|exact Hinv].
    destruct (XboxController.handle_event _ e); exact Hinv.
  - destruct (System.indicator_thread s) eqn:Hth; try exact Hinv.
    + now contradiction Hst.
    + (* the test finds the flag down *)
      unfold Indicators.update_indicators_test, bind, get, ret. rewrite Hup.
      cbn. rewrite app_nil_r. repeat split; trivial; try discriminate.
    + (* the pass already begun *)
      unfold bind at 1.
      destruct (body_reads_once r (App.indicators (System.app s))) as [Ku Kr].
      destruct (Indicators.update_indicators_body r _) as [[i tr] [e|[]]];
        cbn [fst snd ret] in *;
        (split; [cbn; congruence|]); (split; [cbn; discriminate|]);
        cbn [System.log System.indicator_thread pending_read];
        rewrite ?app_nil_r, battery_reads_app, Kr; cbn in Hb; lia.
  - destruct (System.joystick_timer s); [|exact Hinv].
    pose proof (update_joystick_keeps App.indicators ev (fun _ _ => eq_refl)
                  (System.app s)) as Hk.
    pose proof (update_joystick_no_battery_read ev (System.app s)) as Hq.
    destruct (App.update_joystick ev (System.app s)) as [[a' tr] res].
    cbn [fst snd] in *. apply battery_reads_none in Hq.
    unfold stopping. cbn [System.app System.log System.indicator_thread].
    rewrite Hk, battery_reads_app, Hq, Nat.add_0_r.
    exact Hinv.
  - destruct (System.video_timer s); [|exact Hinv].
    pose proof (video_stream_keeps ev (System.app s)) as Hk.
    pose proof (video_stream_no_battery_read ev (System.app s)) as Hq.
    destruct (App.video_stream ev (System.app s)) as [[a' tr] res].
    cbn [fst snd] in *. subst a'. apply battery_reads_none in Hq.
    unfold stopping. cbn [System.app System.log System.indicator_thread].
    rewrite battery_reads_app, Hq, Nat.add_0_r.
    exact Hinv.
  - pose proof (cleanup_no_battery_read ev (System.app s)) as Hq.
    destruct (cleanup_shape ev (System.app s)) as (tr & res & Heq & _).
    rewrite Heq in *. cbn [fst snd] in *. apply battery_reads_none in Hq.
    unfold stopping. cbn [System.app System.log System.indicator_thread].
    rewrite battery_reads_app, Hq, Nat.add_0_r.
    repeat split; trivial.
Qed.

(** X14: once the indicator thread is past its first statement, [cleanup]
    stops it under every interleaving: the [update] flag stays down, the
    thread makes no [get_battery] call beyond the one of a pass it had already
    begun, and its next test of the loop ends it without any call. *)
Theorem cleanup_ends_indicator_loop (s : System.t) (ev : env)
        (actions : list System.action) :
  System.indicator_thread s <> System.Starting ->
  let s' := System.run (System.step s (System.Cleanup ev)) actions in
  Indicators.update (App.indicators (System.app s')) = false /\
  (battery_reads (System.log s') + pending_read (System.indicator_thread s')
   <= battery_reads (System.log s) + pending_read (System.indicator_thread s))%nat /\
  (forall r,
      System.indicator_thread s' = System.Looping ->
      System.indicator_thread (System.step s' (System.Poll r)) = System.Finished /\
      System.log (System.step s' (System.Poll r)) = System.log s').
Proof.
  intros Hst. cbv zeta.
  assert (Hinv : stopping (battery_reads (System.log s)
                           + pending_read (System.indicator_thread s))
                   (System.run (System.step s (System.Cleanup ev)) actions)).
  { apply (run_invariant _ (fun _ => True)); auto.
    - intros s' a _. apply stopping_step.
    - cbn [System.step].
      pose proof (cleanup_no_battery_read ev (System.app s)) as Hq.
      destruct (cleanup_shape ev (System.app s)) as (tr & res & Heq & _).
      rewrite Heq in *. cbn [fst snd] in *. apply battery_reads_none in Hq.
      unfold stopping. cbn [System.app System.log System.indicator_thread].
    rewrite battery_reads_app, Hq, Nat.add_0_r.
      repeat split; trivial. }
  destruct Hinv as (Hup & _ & Hb). split; [exact Hup|]. split; [exact Hb|].
  revert Hup. generalize (System.run (System.step s (System.Cleanup ev)) actions).
  intros s' Hup r Hth. cbn [System.step]. rewrite Hth.
  unfold Indicators.update_indicators_test, bind, get, ret. rewrite Hup.
  cbn. now rewrite app_nil_r.
Qed.

Lemma cleanup_ends_indicator_loop_witness :
  Indicators.update
    (App.indicators
       (System.app
          (System.run
             (System.step
                (System.run (System.init 80)
                   [System.Poll (inr 79); System.Poll (inr 79)])
                (System.Cleanup Examples.calm))
             [System.Poll (inr 78); System.Poll (inr 77)]))) = false.
Proof.
  apply (cleanup_ends_indicator_loop
           (System.run (System.init 80)
              [System.Poll (inr 79); System.Poll (inr 79)])
           Examples.calm [System.Poll (inr 78); System.Poll (inr 77)]).
  discriminate.
Defined.

(** X21: when [drone.end()] raises an [Exception], [cleanup] has already
    cleared the indicators' [update] flag, prints the error and returns;
    [root.quit()] and [exit()] are not called. *)
Theorem cleanup_stops_at_failed_end ev a e :
  outcome_of ev DroneEnd = Raised e ->
  Py.is_Exception e = true ->
  App.cleanup ev a =
  (App.set_indicators (Indicators.set_update false (App.indicators a)) a,
   [ (Print CleaningUpResources, Returned);
     (DroneEnd, Raised e);
     (Print (ErrorPerformingCleanup e), Returned) ],
   inr tt).
Proof.
  intros Ho He. unfold App.cleanup. reduce_M. rewrite Ho, He. reflexivity.
Qed.

Lemma cleanup_stops_at_failed_end_witness :
  App.cleanup Examples.end_fails (App.init 80) =
  (App.set_indicators
     (Indicators.set_update false (App.indicators (App.init 80))) (App.init 80),
   [ (Print CleaningUpResources, Returned);
     (DroneEnd, Raised (Py.Exception "drone disconnected"));
     (Print (ErrorPerformingCleanup (Py.Exception "drone disconnected")), Returned) ],
   inr tt).
Proof.
  apply (cleanup_stops_at_failed_end Examples.end_fails (App.init 80)); reflexivity.
Defined.

(** ** Further properties of the video loop and of [run_app] *)

Lemma all_returned_app t1 t2 :
  all_returned (t1 ++ t2) = all_returned t1 && all_returned t2.
Proof. apply forallb_app. Qed.

Lemma registered_app wd ms cb t1 t2 :
  App.registered wd ms cb (t1 ++ t2) =
  App.registered wd ms cb t1 || App.registered wd ms cb t2.
Proof. apply existsb_app. Qed.

Lemma registered_none wd ms cb (tr : trace) :
  Forall (fun x => ~ is_after (fst x)) tr -> App.registered wd ms cb tr = false.
Proof.
  induction 1 as [|[c o] tr Hc _ IH]; [reflexivity|].
  unfold App.registered in *. cbn [existsb]. rewrite IH.
  destruct c; cbn in Hc; try reflexivity. tauto.
Qed.

Section Soundness.
Context {S : Type}.

Lemma sound_ret {A} (a : A) : sound (@ret S A a).
Proof. intros s. reflexivity. Qed.

Lemma sound_get : sound (@get S).
Proof. intros s. reflexivity. Qed.

Lemma sound_modify f : sound (@modify S f).
Proof. intros s. reflexivity. Qed.

Lemma sound_emit c : sound (@emit S c).
Proof. intros s. reflexivity. Qed.

Lemma sound_do_call ev c : sound (@do_call S ev c).
Proof. intros s. cbn. destruct (outcome_of ev c); reflexivity. Qed.

Lemma sound_bind {A B} (m : M S A) (k : A -> M S B) :
  sound m -> (forall a, sound (k a)) -> sound (bind m k).
Proof.
  intros Hm Hk s. unfold bind. specialize (Hm s).
  destruct (m s) as [[s1 t1] [e|a]]; cbn [fst snd] in *; trivial.
  specialize (Hk a s1). destruct (k a s1) as [[s2 t2] r]; cbn [fst snd] in *.
  now rewrite all_returned_app, Hm, Hk.
Qed.

Lemma sound_do_calls ev cs : sound (@do_calls S ev cs).
Proof.
  induction cs as [|c cs IH]; cbn [do_calls].
  - apply sound_ret.
  - apply sound_bind; [apply sound_do_call | intros _; exact IH].
Qed.

Lemma ends_registered_after ev wd ms cb :
  ends_registered wd ms cb (@do_call S ev (After wd ms cb)).
Proof.
  intros s. cbn. rewrite Z.eqb_refl.
  destruct (outcome_of ev _), wd, cb; reflexivity.
Qed.

Lemma ends_registered_bind {A B} wd ms cb (m : M S A) (k : A -> M S B) :
  calls_only (fun c => ~ is_after c) m ->
  (forall a, ends_registered wd ms cb (k a)) ->
  ends_registered wd ms cb (bind m k).
Proof.
  intros Hm Hk s. unfold bind. specialize (Hm s).
  apply (registered_none wd ms cb) in Hm.
  destruct (m s) as [[s1 t1] [e|a]]; cbn [fst snd] in *; trivial.
  specialize (Hk a s1). destruct (k a s1) as [[s2 t2] r]; cbn [fst snd] in *.
  now rewrite registered_app, Hm, Hk.
Qed.

Lemma do_calls_all_return ev cs (s : S) :
  (forall c, outcome_of ev c = Returned) ->
  do_calls ev cs s = (s, map (fun c => (c, Returned)) cs, inr tt).
Proof.
  intros Hret. induction cs as [|c cs IH]; [reflexivity|].
  cbn [do_calls map]. unfold bind, do_call. now rewrite Hret, IH.
Qed.

End Soundness.

Lemma draw_battery_indicator_no_timer (i : Indicators.t) :
  Forall (fun c => ~ is_after c) (Indicators.draw_battery_indicator i).
Proof.
  unfold Indicators.draw_battery_indicator.
  repeat match goal with |- context [if ?b then _ else _] => destruct b end;
    cbn; repeat constructor; auto.
Qed.

(** X15: [video_stream] leaves the application object as it was, registers
    its next run, 5 ms later, exactly when every call returns, lets no
    [Exception] out, and when every call returns makes the calls of
    [draw_battery_indicator] between the resize and the colour conversion. *)
Theorem video_stream_reschedules_unless_raised ev a :
  let r := App.video_stream ev a in
  fst (fst r) = a /\
  App.registered CapLbl 5 VideoStream (snd (fst r)) = all_returned (snd (fst r)) /\
  escapes (snd r) = false /\
  ((forall c, outcome_of ev c = Returned) ->
   calls (snd (fst r)) =
     Cv2Resize (App.w a) (App.h a)
       :: Indicators.draw_battery_indicator (App.indicators a)
       ++ [Cv2CvtColor; ImageFromarray; PhotoImage; CapLblPack; CapLblConfigure;
           After CapLbl 5 VideoStream]).
Proof.
  cbv zeta. split; [apply video_stream_keeps|].
  assert (Hsound : sound
    (self <- @get App.t ;;
     do_call ev (Cv2Resize (App.w self) (App.h self)) ;;;
     do_calls ev (Indicators.draw_battery_indicator (App.indicators self)) ;;;
     do_call ev Cv2CvtColor ;;; do_call ev ImageFromarray ;;;
     do_call ev PhotoImage ;;; do_call ev CapLblPack ;;;
     do_call ev CapLblConfigure ;;; do_call ev (After CapLbl 5 VideoStream))).
  { repeat first [ apply sound_bind; [|intros ?]
                 | apply sound_get | apply sound_do_call | apply sound_do_calls ]. }
  assert (Hends : ends_registered CapLbl 5 VideoStream
    (self <- @get App.t ;;
     do_call ev (Cv2Resize (App.w self) (App.h self)) ;;;
     do_calls ev (Indicators.draw_battery_indicator (App.indicators self)) ;;;
     do_call ev Cv2CvtColor ;;; do_call ev ImageFromarray ;;;
     do_call ev PhotoImage ;;; do_call ev CapLblPack ;;;
     do_call ev CapLblConfigure ;;; do_call ev (After CapLbl 5 VideoStream))).
  { repeat first
      [ apply ends_registered_after
      | apply ends_registered_bind; [|intros ?] ].
    all: first [ apply calls_only_get
               | apply calls_only_do_call; cbn; tauto
               | apply calls_only_do_calls, draw_battery_indicator_no_timer ]. }
  split; [|split].
  - unfold App.video_stream, try_except.
    specialize (Hsound a). specialize (Hends a).
    destruct ((self <- get ;; _) a) as [[s1 t1] [e|[]]]; cbn [fst snd] in *.
    + destruct (Py.is_Exception e); cbn [emit fst snd].
      * rewrite registered_app, all_returned_app, Hends, Hsound. reflexivity.
      * now rewrite Hends, Hsound.
    + now rewrite Hends, Hsound.
  - unfold App.video_stream, try_except.
    destruct ((self <- get ;; _) a) as [[s1 t1] [e|[]]]; [|reflexivity].
    destruct e; reflexivity.
  - intros Hret.
    cbv beta iota delta [App.video_stream try_except bind get do_call].
    repeat (first [rewrite Hret | rewrite (do_calls_all_return ev _ _ Hret)];
            cbv beta iota).
    unfold calls. cbn [fst snd app]. cbn [map fst]. f_equal.
    rewrite map_app, map_map. cbn [map fst]. now rewrite map_id.
Qed.

Lemma video_stream_reschedules_unless_raised_witness :
  calls (snd (fst (App.video_stream Examples.calm (App.init 80)))) =
  Cv2Resize (App.w (App.init 80)) (App.h (App.init 80))
    :: Indicators.draw_battery_indicator (App.indicators (App.init 80))
    ++ [Cv2CvtColor; ImageFromarray; PhotoImage; CapLblPack; CapLblConfigure;
        After CapLbl 5 VideoStream].
Proof.
  apply (proj2 (proj2 (proj2
           (video_stream_reschedules_unless_raised Examples.calm (App.init 80))))).
  intros c. reflexivity.
Defined.

(** X16: the calls of [draw_battery_indicator] are, in order, the filled
    white body rectangle, the filled white terminal rectangle that starts at
    the body's right edge and lies within its height, the bars, and the
    percentage text; every bar is a vertical line of thickness 2 strictly
    inside the body rectangle drawn. *)
Theorem bars_lie_inside_the_body (self : Indicators.t) :
  exists l t r b t' r' b' org,
    Indicators.draw_battery_indicator self =
      Cv2Rectangle (l, t) (r, b) Indicators.white (-1)
      :: Cv2Rectangle (r, t') (r', b') Indicators.white (-1)
      :: drawn_bars (Indicators.draw_battery_indicator self)
      ++ [Cv2PutText (Indicators.battery self) org (43, 157, 255) 1] /\
    (t < t' /\ t' < b' /\ b' < b /\ r < r') /\
    Forall (fun c => exists x y1 y2 color,
                c = Cv2Line (x, y1) (x, y2) color 2 /\
                l < x < r /\ t < y1 /\ y1 < y2 /\ y2 < b)
           (drawn_bars (Indicators.draw_battery_indicator self)).
Proof.
  exists (Indicators.w self / 128 + 3), (Indicators.h self / 32 + 29),
         (Indicators.w self / 128 + 52), (Indicators.h self / 32 + 51),
         (Indicators.h self / 32 + 35), (Indicators.w self / 128 + 55),
         (Indicators.h self / 32 + 45),
         (Indicators.w self / 128 + 60, Indicators.h self / 32 + 45).
  unfold Indicators.draw_battery_indicator.
  repeat match goal with |- context [if ?c then _ else _] => destruct c end.
  all: cbn [app Indicators.bars firstn map Indicators.bar drawn_bars filter].
  all: split; [reflexivity|]; split; [lia|].
  all: repeat constructor; do 4 eexists; (split; [reflexivity|lia]).
Qed.

(** X17: outside the percentage range the drawing falls into the last
    branches: above 100 it shows 7 green bars, below 0 one red bar. *)
Theorem battery_outside_percent_range (self : Indicators.t) :
  (100 < Indicators.battery self ->
   Indicators.segment_colors (Indicators.draw_battery_indicator self) =
   repeat Indicators.green 7) /\
  (Indicators.battery self < 0 ->
   Indicators.segment_colors (Indicators.draw_battery_indicator self) =
   repeat Indicators.red 1).
Proof.
  unfold Indicators.draw_battery_indicator, Indicators.segment_colors.
  rewrite !flat_map_app. cbn [flat_map app]. rewrite app_nil_r.
  fold Indicators.segment_colors.
  split; intros Hb;
    repeat match goal with
           | |- context [if ?c then _ else _] => destruct c eqn:?
           end;
    rewrite ?Z.geb_leb, ?andb_true_iff, ?andb_false_iff in *;
    rewrite ?Z.leb_le, ?Z.leb_gt, ?Z.ltb_lt, ?Z.ltb_ge, ?Z.eqb_eq, ?Z.eqb_neq in *;
    try lia; reflexivity.
Qed.

Lemma battery_outside_percent_range_witness :
  Indicators.segment_colors
    (Indicators.draw_battery_indicator (Indicators.init 720 480 101)) =
  repeat Indicators.green 7.
Proof.
  apply (proj1 (battery_outside_percent_range (Indicators.init 720 480 101))).
  cbn. lia.
Defined.

(** X18: [run_app] always runs [cleanup]: its message is printed, the
    indicators' [update] flag ends false, and no [Exception] leaves
    [run_app]. *)
Theorem run_app_always_cleans_up ev ev_video ev_joystick ev_cleanup a :
  let r := App.run_app ev ev_video ev_joystick ev_cleanup a in
  In (Print CleaningUpResources, Returned) (snd (fst r)) /\
  Indicators.update (App.indicators (fst (fst r))) = false /\
  escapes (snd r) = false.
Proof.
  cbv zeta. unfold App.run_app, try_finally.
  pose proof (try_except_print_no_escape
                (do_call ev CapLblPack ;;; App.video_stream ev_video ;;;
                 App.update_joystick ev_joystick ;;; do_call ev Mainloop)
                ErrorRunningApplication a) as Hbody.
  destruct (try_except _ _ a) as [[s1 t1] r1]. cbn [snd] in Hbody.
  destruct (cleanup_shape ev_cleanup s1) as (tr & r & -> & Hr).
  destruct r as [e|[]]; cbn [fst snd]; repeat split; trivial;
    apply in_or_app; right; now left.
Qed.

(** X19: when packing the video label raises an [Exception], [run_app]
    prints it, calls neither [video_stream] nor [update_joystick] nor the main
    loop, and goes straight to [cleanup]. *)
Theorem run_app_failed_start ev ev_video ev_joystick ev_cleanup a e :
  outcome_of ev CapLblPack = Raised e ->
  Py.is_Exception e = true ->
  let r := App.run_app ev ev_video ev_joystick ev_cleanup a in
  snd (fst r) =
    [ (CapLblPack, Raised e); (Print (ErrorRunningApplication e), Returned) ]
      ++ snd (fst (App.cleanup ev_cleanup a)) /\
  fst (fst r) = fst (fst (App.cleanup ev_cleanup a)).
Proof.
  intros Ho He. cbv zeta.
  assert (Hbody :
    try_except
      (do_call ev CapLblPack ;;; App.video_stream ev_video ;;;
       App.update_joystick ev_joystick ;;; do_call ev Mainloop)
      (fun e => emit (Print (ErrorRunningApplication e))) a =
    (a, [ (CapLblPack, Raised e);
          (Print (ErrorRunningApplication e), Returned) ], inr tt)).
  { unfold try_except. unfold bind at 1. unfold do_call at 1.
    rewrite Ho. cbv beta iota. rewrite He. reflexivity. }
  unfold App.run_app, try_finally. rewrite Hbody.
  destruct (App.cleanup ev_cleanup a) as [[s2 t2] [e2|[]]]; split; reflexivity.
Qed.

Lemma run_app_failed_start_witness :
  snd (fst (App.run_app
              {| outcome_of := fun c =>
                   match c with
                   | CapLblPack => Raised (Py.Exception "no display")
                   | _ => Returned
                   end;
                 drone_is_flying := false |}
              Examples.calm Examples.calm Examples.calm (App.init 80))) =
    [ (CapLblPack, Raised (Py.Exception "no display"));
      (Print (ErrorRunningApplication (Py.Exception "no display")), Returned) ]
      ++ snd (fst (App.cleanup Examples.calm (App.init 80))) /\
  fst (fst (App.run_app
              {| outcome_of := fun c =>
                   match c with
                   | CapLblPack => Raised (Py.Exception "no display")
                   | _ => Returned
                   end;
                 drone_is_flying := false |}
              Examples.calm Examples.calm Examples.calm (App.init 80))) =
  fst (fst (App.cleanup Examples.calm (App.init 80))).
Proof.
  apply (run_app_failed_start
           {| outcome_of := fun c =>
                match c with
                | CapLblPack => Raised (Py.Exception "no display")
                | _ => Returned
                end;
              drone_is_flying := false |}
           Examples.calm Examples.calm Examples.calm (App.init 80)
           (Py.Exception "no display")); reflexivity.
Defined.

(** X20: with the toggle button up, a right-stick-X reading handled by the
    monitor thread is the lateral component of the command of the next tick,
    after normalization and the dead zone; the other components are the stored
    values of the other sticks. *)
Theorem stick_reading_reaches_next_command (s : System.t) (raw : Z) (ev : env) :
  System.monitor_alive s = true ->
  System.joystick_timer s = true ->
  List.length (App.rc_controls (System.app s)) = 4%nat ->
  App.xbox_controller (System.app s) XboxController.Back = 0 ->
  - 2 ^ 15 <= raw <= 2 ^ 15 ->
  exists n,
    XboxController._normalize raw = Some n /\
    App.sent_commands
      (System.log (System.run s [System.Gamepad (Examples.axis "ABS_RX" raw);
                                 System.Tick ev])) =
    App.sent_commands (System.log s)
      ++ [(XboxController._filter_noise n,
           App.xbox_controller (System.app s) XboxController.RightJoystickY,
           App.xbox_controller (System.app s) XboxController.LeftJoystickY,
           App.xbox_controller (System.app s) XboxController.LeftJoystickX)].
Proof.
  intros Hm Ht Hrc Hb Hraw.
  destruct (_normalize_bounded raw Hraw) as (n & Hn & _).
  exists n. split; [exact Hn|].
  cbn [System.run fold_left]. cbn [System.step]. rewrite Hm.
  assert (Hh : XboxController.handle_event (App.xbox_controller (System.app s))
                 (Examples.axis "ABS_RX" raw) =
               Some (XboxController.setattr (App.xbox_controller (System.app s))
                       XboxController.RightJoystickX
                       (XboxController._filter_noise n))).
  { unfold XboxController.handle_event, XboxController.store_axis.
    cbn [Examples.axis XboxController.code XboxController.state String.eqb
         Ascii.eqb Bool.eqb]. now rewrite Hn. }
  rewrite Hh. cbn [System.step System.joystick_timer System.app System.log].
  rewrite Ht.
  pose proof (update_joystick_sends ev
                (App.set_xbox_controller
                   (XboxController.setattr (App.xbox_controller (System.app s))
                      XboxController.RightJoystickX
                      (XboxController._filter_noise n)) (System.app s))
                Hrc) as Hs.
  destruct Hs as [Hs _].
  { cbn. rewrite Hb. intros H. discriminate H. }
  destruct (App.update_joystick ev _) as [[a' tr] res].
  cbn [fst snd] in Hs. cbn [System.log].
  rewrite sent_commands_app, Hs. reflexivity.
Qed.

Lemma stick_reading_reaches_next_command_witness :
  exists n,
    XboxController._normalize 16384 = Some n /\
    App.sent_commands
      (System.log (System.run (System.init 80)
                     [System.Gamepad (Examples.axis "ABS_RX" 16384);
                      System.Tick Examples.calm])) =
    App.sent_commands (System.log (System.init 80))
      ++ [(XboxController._filter_noise n,
           App.xbox_controller (System.app (System.init 80)) XboxController.RightJoystickY,
           App.xbox_controller (System.app (System.init 80)) XboxController.LeftJoystickY,
           App.xbox_controller (System.app (System.init 80)) XboxController.LeftJoystickX)].
Proof.
  apply (stick_reading_reaches_next_command (System.init 80) 16384 Examples.calm);
    try reflexivity.
  cbn. lia.
Defined.
